(** * DORA metrics analyzer: a shallow embedding of [ContentAnalyzer/analyze.py]

    The analyzer is a pandas program.  The embedding keeps its structure:

    - Python [str] values are [string]s; the three regular expressions the
      program uses (an alternation of literal keywords, an escaped literal
      tag, and the bracket pattern of [extract_components]) are embedded as
      the matchers [re_search_ci] and [re_extract_first].  Case-insensitive
      matching folds the letters A-Z only, so the embedding speaks about
      ASCII text.
    - A data frame is a list of rows, each carrying its index label; the
      frame produced by [load_data] has the labels 0, 1, 2, ...
    - A timestamp is a number of nanoseconds since the epoch, [None] is
      pandas' NaT.  In [calculate_dora_metrics] timestamp arithmetic is
      unbounded and the message column is a column of text; the variant
      [calculate_dora_metrics_checked] adds what the library does outside
      that scope: the subtraction of two timestamps raises when the
      difference leaves the 64-bit range of a duration, and the [.str]
      accessor raises on a message column that is not of object dtype.
    - The scalar [Timedelta.total_seconds()] of line 57 keeps whole
      microseconds only; the column accessor [.dt.total_seconds()] of
      line 67 is exact.
    - A Python float is either NaN or an exact rational ([pyfloat]); the
      rounding of floating-point arithmetic is not modelled.
    - Operations that can raise ([.loc], [.iloc], division) return a
      [result]. *)

From Stdlib Require Import List ZArith QArith String Ascii Bool Lia Arith Sorted
  Permutation.
Import ListNotations.

(** ** Python strings and the [re] fragment *)

Module PyStr.

Local Open Scope string_scope.
Local Open Scope bool_scope.

(** [str.lower] on one ASCII character: only A-Z are folded. *)
Definition lower_char (c : ascii) : ascii :=
  let n := nat_of_ascii c in
  if (65 <=? n)%nat && (n <=? 90)%nat then ascii_of_nat (n + 32) else c.

Fixpoint lower (s : string) : string :=
  match s with
  | EmptyString => EmptyString
  | String c s' => String (lower_char c) (lower s')
  end.

(** The literal [p], compiled with [re.IGNORECASE], matches at the start
    of [s]. *)
Fixpoint match_literal_ci (p s : string) : bool :=
  match p, s with
  | EmptyString, _ => true
  | String _ _, EmptyString => false
  | String a p', String b s' =>
      Ascii.eqb (lower_char a) (lower_char b) && match_literal_ci p' s'
  end.

(** [re.compile('t1|t2|...', re.IGNORECASE).search(s) is not None] for
    literal alternatives: try every start position from the left. *)
Fixpoint re_search_ci (alts : list string) (s : string) : bool :=
  existsb (fun p => match_literal_ci p s) alts
  || match s with
     | EmptyString => false
     | String _ s' => re_search_ci alts s'
     end.

(** [Series.str.contains(pat, case=False, na=False)] on one cell: a missing
    cell (NaN) gives [False]. *)
Definition str_contains (alts : list string) (cell : option string) : bool :=
  match cell with
  | Some s => re_search_ci alts s
  | None => false
  end.

(** The longest prefix of [s] without a closing bracket, and the rest:
    what the greedy class [[^\]]+] consumes. *)
Fixpoint span_not_rbracket (s : string) : string * string :=
  match s with
  | EmptyString => (EmptyString, EmptyString)
  | String c s' =>
      if Ascii.eqb c "]" then (EmptyString, s)
      else let (body, rest) := span_not_rbracket s' in (String c body, rest)
  end.

(** First match of [\[([^\]]+)\]] in [s]; the result is capture group 1. *)
Fixpoint re_extract_first (s : string) : option string :=
  match s with
  | EmptyString => None
  | String c s' =>
      if Ascii.eqb c "[" then
        match span_not_rbracket s' with
        | (String b body, String _ _) => Some (String b body)
        | _ => re_extract_first s'
        end
      else re_extract_first s'
  end.

(** [Series.str.extract] on one cell. *)
Definition str_extract (cell : option string) : option string :=
  match cell with
  | Some s => re_extract_first s
  | None => None
  end.

(** The pattern [rf'\[{re.escape(name)}\]']: after escaping it is the
    literal text of the bracketed name. *)
Definition bracketed (name : string) : string :=
  String "[" (name ++ "]").

End PyStr.

(** ** Python values: exceptions and floats *)

Module Py.

Inductive exn : Type :=
| KeyError
| IndexError
| ZeroDivisionError
| AttributeError
| OutOfBoundsDatetime.

Inductive result (A : Type) : Type :=
| Ok (a : A)
| Raise (e : exn).
Arguments Ok {A} a.
Arguments Raise {A} e.

Definition bind {A B : Type} (r : result A) (k : A -> result B) : result B :=
  match r with
  | Ok a => k a
  | Raise e => Raise e
  end.

(** A Python float: NaN or an exact rational. *)
Inductive pyfloat : Type :=
| Fin (q : Q)
| NaN.

Definition fzero : pyfloat := Fin 0.

Definition of_int (n : nat) : pyfloat := Fin (inject_Z (Z.of_nat n)).

Definition fadd (x y : pyfloat) : pyfloat :=
  match x, y with
  | Fin a, Fin b => Fin (a + b)
  | _, _ => NaN
  end.

Definition fmul (x y : pyfloat) : pyfloat :=
  match x, y with
  | Fin a, Fin b => Fin (a * b)
  | _, _ => NaN
  end.

(** [x > y]: every comparison with NaN is [False]. *)
Definition fgt (x y : pyfloat) : bool :=
  match x, y with
  | Fin a, Fin b => negb (Qle_bool a b)
  | _, _ => false
  end.

(** Python's [x / y] on scalars raises when the divisor is zero. *)
Definition py_div (x y : pyfloat) : result pyfloat :=
  match y with
  | Fin b =>
      if Qeq_bool b 0 then Raise ZeroDivisionError
      else match x with
           | Fin a => Ok (Fin (a / b))
           | NaN => Ok NaN
           end
  | NaN => Ok NaN
  end.

(** The builtin [sum] of a list of floats. *)
Definition py_sum (l : list pyfloat) : pyfloat := fold_left fadd l fzero.

Definition is_finite (x : pyfloat) : bool :=
  match x with
  | Fin _ => true
  | NaN => false
  end.

(** Two floats denote the same number. *)
Definition feq (x y : pyfloat) : Prop :=
  match x, y with
  | Fin a, Fin b => a == b
  | NaN, NaN => True
  | _, _ => False
  end.

End Py.

Declare Scope py_scope.
Notation "x <- c ;; k" := (Py.bind c (fun x => k))
  (at level 61, c at next level, right associativity) : py_scope.

(** ** The pandas fragment *)

Module Pandas.

Import Py.
Local Open Scope py_scope.

(** A datetime64 cell: nanoseconds since the epoch, or NaT. *)
Definition Timestamp : Type := option Z.
(** A timedelta64 cell: nanoseconds, or NaT. *)
Definition Timedelta : Type := option Z.

(** A column (or a frame) keeps the index label next to every value. *)
Definition Series (A : Type) : Type := list (nat * A).

Definition index {A : Type} (s : Series A) : list nat := map fst s.
Definition values {A : Type} (s : Series A) : list A := map snd s.

(** The labels grow strictly from row to row, as in a frame read from a
    file and in every selection of its rows. *)
Definition increasing {A : Type} (s : Series A) : Prop :=
  StronglySorted lt (index s).

(** Boolean indexing [s[mask]]: the selected rows keep their labels. *)
Definition select {A : Type} (mask : A -> bool) (s : Series A) : Series A :=
  filter (fun r => mask (snd r)) s.

(** [int(col.sum())] of a boolean column. *)
Definition count_true {A : Type} (col : A -> bool) (s : Series A) : nat :=
  List.length (select col s).

(** [s.loc[idx]]: the row labelled [idx], [KeyError] when there is none. *)
Fixpoint loc {A : Type} (s : Series A) (idx : nat) : result A :=
  match s with
  | [] => Raise KeyError
  | (i, a) :: s' => if Nat.eqb i idx then Ok a else loc s' idx
  end.

(** [s.iloc[n]]: the row at position [n], [IndexError] out of range. *)
Definition iloc {A : Type} (s : Series A) (n : nat) : result A :=
  match nth_error s n with
  | Some r => Ok (snd r)
  | None => Raise IndexError
  end.

Definition empty {A : Type} (s : Series A) : bool :=
  match s with
  | [] => true
  | _ :: _ => false
  end.

(** [a - b] on two timestamps; NaT is absorbing. *)
Definition ts_sub (a b : Timestamp) : Timedelta :=
  match a, b with
  | Some x, Some y => Some (x - y)%Z
  | _, _ => None
  end.

(** The scalar [Timedelta.total_seconds()]: days, seconds and microseconds
    of the duration are added and its nanosecond field (0 to 999) is left
    out, so the result is the duration rounded down to a whole
    microsecond; [nan] on NaT. *)
Definition total_seconds (d : Timedelta) : pyfloat :=
  match d with
  | Some ns => Fin (inject_Z (ns / 1000) / inject_Z 1000000)
  | None => NaN
  end.

(** The column accessor [.dt.total_seconds()]: the nanosecond count
    divided by 10^9; [nan] on NaT. *)
Definition dt_total_seconds (d : Timedelta) : pyfloat :=
  match d with
  | Some ns => Fin (inject_Z ns / inject_Z 1000000000)
  | None => NaN
  end.

Definition int64_min : Z := - 2 ^ 63.
Definition int64_max : Z := 2 ^ 63 - 1.

(** [a - b] on two scalar timestamps with the range of the result: the
    difference is a 64-bit count of nanoseconds, the least 64-bit value
    stands for NaT, and a difference outside the 64 bits raises. *)
Definition timestamp_sub (a b : Timestamp) : result Timedelta :=
  match a, b with
  | Some x, Some y =>
      let d := (x - y)%Z in
      if (d <? int64_min)%Z || (int64_max <? d)%Z then Raise OutOfBoundsDatetime
      else if (d =? int64_min)%Z then Ok None
      else Ok (Some d)
  | _, _ => Ok None
  end.

(** [x / 3600] with the constant divisor of the program. *)
Definition hours (x : pyfloat) : pyfloat :=
  match x with
  | Fin s => Fin (s / inject_Z 3600)
  | NaN => NaN
  end.

Definition ns_per_day : Z := 86400000000000.

(** [dt.to_period('W')]: weeks run from Monday to Sunday; the epoch
    (a Thursday) lies in week 0, which starts three days earlier. *)
Definition to_period_W (t : Timestamp) : option Z :=
  match t with
  | Some ns => Some ((ns / ns_per_day + 3) / 7)%Z
  | None => None
  end.

(** One step of [groupby(key).size()]: count [w] into the groups, which
    are kept sorted by key. *)
Fixpoint bump (w : Z) (g : list (Z * nat)) : list (Z * nat) :=
  match g with
  | [] => [(w, 1%nat)]
  | (k, n) :: g' =>
      if (w <? k)%Z then (w, 1%nat) :: g
      else if (w =? k)%Z then (k, S n) :: g'
      else (k, n) :: bump w g'
  end.

(** [groupby(key).size()]: rows whose key is missing are dropped. *)
Definition groupby_size (keys : list (option Z)) : list (Z * nat) :=
  fold_left (fun g k => match k with Some w => bump w g | None => g end)
            keys [].

Fixpoint dropna (l : list pyfloat) : list Q :=
  match l with
  | [] => []
  | Fin q :: l' => q :: dropna l'
  | NaN :: l' => dropna l'
  end.

Definition Qsum (l : list Q) : Q := fold_right Qplus 0 l.

(** [Series.mean()]: missing values are skipped, and the mean of nothing
    is NaN. *)
Definition series_mean (l : list pyfloat) : pyfloat :=
  match dropna l with
  | [] => NaN
  | v :: vs => Fin (Qsum (v :: vs) / inject_Z (Z.of_nat (List.length (v :: vs))))
  end.

(** Sorted insertion without duplicates, for the union of two indexes. *)
Fixpoint insert_label (i : nat) (l : list nat) : list nat :=
  match l with
  | [] => [i]
  | j :: l' =>
      if (i <? j)%nat then i :: l
      else if (i =? j)%nat then l
      else j :: insert_label i l'
  end.

Definition index_union (ia ib : list nat) : list nat :=
  fold_right insert_label [] (ia ++ ib).

Fixpoint get {A : Type} (s : Series A) (idx : nat) : option A :=
  match s with
  | [] => None
  | (i, a) :: s' => if Nat.eqb i idx then Some a else get s' idx
  end.

(** [a - b] on two datetime columns.  pandas aligns the operands on their
    index labels first: the result has the union of the labels, and a label
    missing on either side yields NaT. *)
Definition series_sub (a b : Series Timestamp) : Series Timedelta :=
  map (fun i =>
         (i, match get a i, get b i with
             | Some x, Some y => ts_sub x y
             | _, _ => None
             end))
      (index_union (index a) (index b)).

End Pandas.

(** ** [ContentAnalyzer/analyze.py] *)

Module Analyze.

Import Py Pandas PyStr.
Local Open Scope py_scope.
Local Open Scope string_scope.
Local Open Scope bool_scope.

(** One record of the commit log: the [date] cell after
    [pd.to_datetime(..., errors='coerce', utc=True)], so a missing or
    unparseable date is NaT, and the [message] cell, NaN when missing. *)
Record Row : Type := mkRow {
  date : Timestamp;
  message : option string
}.

Definition DataFrame : Type := Series Row.

(** [load_data]: [read_csv] labels the records 0, 1, 2, ...  The message
    column is taken to be of object dtype, as it is when some message cell
    holds text. *)
Definition load_data (records : list Row) : DataFrame :=
  combine (seq 0 (List.length records)) records.

(** [Series.dropna] on the component column. *)
Fixpoint dropna_str (l : list (option string)) : list string :=
  match l with
  | [] => []
  | Some s :: l' => s :: dropna_str l'
  | None :: l' => dropna_str l'
  end.

(** [Series.unique]: distinct values in order of first appearance. *)
Fixpoint unique (l : list string) : list string :=
  match l with
  | [] => []
  | x :: l' => x :: filter (fun y => negb (String.eqb x y)) (unique l')
  end.

(** The column [df['component']]. *)
Definition component_column (df : DataFrame) : list (option string) :=
  map (fun r => str_extract (message (snd r))) df.

Definition extract_components (df : DataFrame) : list string :=
  unique (dropna_str (component_column df)).

Definition deployment_keywords : list string :=
  ["deploy"; "release"; "bump"; "update"; "version"].
Definition failure_keywords : list string :=
  ["bug"; "rollback"; "hotfix"; "revert"; "patch"].
Definition bug_keywords : list string := ["bug"; "error"; "issue"].
Definition pr_keywords : list string := ["PR"; "pull request"].

(** A row of [module_commits]: the record and its four label columns. *)
Record Commit : Type := mkCommit {
  c_date : Timestamp;
  c_message : option string;
  is_deployment : bool;
  is_failure : bool;
  is_bug : bool;
  is_pr : bool
}.

(** Lines 28-34.  Dropping the time zone of a UTC instant leaves the
    nanosecond count as it is. *)
Definition classify (r : Row) : Commit :=
  {| c_date := date r;
     c_message := message r;
     is_deployment := str_contains deployment_keywords (message r);
     is_failure := str_contains failure_keywords (message r);
     is_bug := str_contains bug_keywords (message r);
     is_pr := str_contains pr_keywords (message r) |}.

(** Line 21: the rows whose message contains the bracketed module name. *)
Definition module_filter (module_name : string) (r : Row) : bool :=
  str_contains [bracketed module_name] (message r).

Definition module_commits (df : DataFrame) (module_name : string)
  : Series Commit :=
  map (fun r => (fst r, classify (snd r))) (select (module_filter module_name) df).

Definition deployment_count (mc : Series Commit) : nat :=
  count_true is_deployment mc.

Definition failure_count (mc : Series Commit) : nat :=
  count_true is_failure mc.

(** Line 39, on the deployments: the column [week]. *)
Definition week_keys (mc : Series Commit) : list (option Z) :=
  map (fun c => to_period_W (c_date c)) (values (select is_deployment mc)).

(** [module_commits[is_deployment].groupby('week').size()] *)
Definition week_sizes (mc : Series Commit) : list (Z * nat) :=
  groupby_size (week_keys mc).

(** Lines 36-42. *)
Definition weekly_deployment_freq (mc : Series Commit) : pyfloat :=
  if (0 <? deployment_count mc)%nat
  then series_mean (map (fun g => of_int (snd g)) (week_sizes mc))
  else fzero.

(** Lines 44-46. *)
Definition change_failure_rate (mc : Series Commit) : result pyfloat :=
  if (0 <? deployment_count mc)%nat
  then q <- py_div (of_int (failure_count mc)) (of_int (deployment_count mc)) ;;
       Ok (fmul q (of_int 100))
  else Ok fzero.

(** [module_commits[module_commits['is_failure']].index] *)
Definition failure_indices (mc : Series Commit) : list nat :=
  index (select is_failure mc).

(** Line 54: rows labelled after [idx] that are deployments. *)
Definition subsequent_recoveries (mc : Series Commit) (idx : nat)
  : Series Commit :=
  filter (fun r => (idx <? fst r)%nat && is_deployment (snd r)) mc.

(** Lines 52-59: the loop over the failure labels, appending to
    [recovery_times].  The subtraction of line 57 is taken without its
    range check, which [recovery_loop_checked] adds. *)
Fixpoint recovery_loop (mc : Series Commit) (indices : list nat)
         (recovery_times : list pyfloat) : result (list pyfloat) :=
  match indices with
  | [] => Ok recovery_times
  | idx :: rest =>
      failure_row <- loc mc idx ;;
      let failure_time := c_date failure_row in
      let later := subsequent_recoveries mc idx in
      if negb (empty later) then
        first <- iloc later 0 ;;
        let recovery_time := c_date first in
        let time_to_recovery :=
          hours (total_seconds (ts_sub recovery_time failure_time)) in
        if fgt time_to_recovery fzero
        then recovery_loop mc rest (recovery_times ++ [time_to_recovery])
        else recovery_loop mc rest recovery_times
      else recovery_loop mc rest recovery_times
  end.

Definition recovery_times (mc : Series Commit) : result (list pyfloat) :=
  recovery_loop mc (failure_indices mc) [].

(** Line 61. *)
Definition mean_of_recoveries (rts : list pyfloat) : result pyfloat :=
  match rts with
  | [] => Ok fzero
  | _ :: _ => py_div (py_sum rts) (of_int (List.length rts))
  end.

Definition mean_time_to_recovery (mc : Series Commit) : result pyfloat :=
  rts <- recovery_times mc ;;
  mean_of_recoveries rts.

Definition date_column (mc : Series Commit) : Series Timestamp :=
  map (fun r => (fst r, c_date (snd r))) mc.

(** Lines 66-67. *)
Definition lead_times (mc : Series Commit) : Series pyfloat :=
  let deployment_times := date_column (select is_deployment mc) in
  map (fun r => (fst r, hours (dt_total_seconds (snd r))))
      (series_sub deployment_times (date_column mc)).

(** Lines 63-70. *)
Definition lead_time_for_changes (mc : Series Commit) : pyfloat :=
  if (0 <? deployment_count mc)%nat
  then if negb (empty (lead_times mc))
       then series_mean (values (lead_times mc))
       else fzero
  else fzero.

Record MetricReport : Type := mkReport {
  Module_Name : string;
  Total_Commits : nat;
  Total_Bugs : nat;
  Total_PRs : nat;
  Weekly_Deployment_Frequency : pyfloat;
  Change_Failure_Rate : pyfloat;
  Mean_Time_to_Recovery : pyfloat;
  Lead_Time_for_Changes : pyfloat
}.

Definition calculate_dora_metrics (df : DataFrame) (module_name : string)
  : result MetricReport :=
  let mc := module_commits df module_name in
  let freq := weekly_deployment_freq mc in
  rate <- change_failure_rate mc ;;
  mttr <- mean_time_to_recovery mc ;;
  let lead := lead_time_for_changes mc in
  Ok {| Module_Name := module_name;
        Total_Commits := List.length mc;
        Total_Bugs := count_true is_bug mc;
        Total_PRs := count_true is_pr mc;
        Weekly_Deployment_Frequency := freq;
        Change_Failure_Rate := rate;
        Mean_Time_to_Recovery := mttr;
        Lead_Time_for_Changes := lead |}.

(** Lines 52-59 with the range check of the subtraction of line 57. *)
Fixpoint recovery_loop_checked (mc : Series Commit) (indices : list nat)
         (recovery_times : list pyfloat) : result (list pyfloat) :=
  match indices with
  | [] => Ok recovery_times
  | idx :: rest =>
      failure_row <- loc mc idx ;;
      let failure_time := c_date failure_row in
      let later := subsequent_recoveries mc idx in
      if negb (empty later) then
        first <- iloc later 0 ;;
        let recovery_time := c_date first in
        delta <- timestamp_sub recovery_time failure_time ;;
        let time_to_recovery := hours (total_seconds delta) in
        if fgt time_to_recovery fzero
        then recovery_loop_checked mc rest (recovery_times ++ [time_to_recovery])
        else recovery_loop_checked mc rest recovery_times
      else recovery_loop_checked mc rest recovery_times
  end.

Definition mean_time_to_recovery_checked (mc : Series Commit)
  : result pyfloat :=
  rts <- recovery_loop_checked mc (failure_indices mc) [] ;;
  mean_of_recoveries rts.

(** [calculate_dora_metrics] on a frame whose message column may be of
    another dtype than object ([message_is_text] false: a column read from
    cells that are all empty or all numbers), where the [.str] accessor of
    line 21 raises, and with the range check of line 57. *)
Definition calculate_dora_metrics_checked (message_is_text : bool)
           (df : DataFrame) (module_name : string) : result MetricReport :=
  if negb message_is_text then Raise AttributeError
  else
    let mc := module_commits df module_name in
    let freq := weekly_deployment_freq mc in
    rate <- change_failure_rate mc ;;
    mttr <- mean_time_to_recovery_checked mc ;;
    let lead := lead_time_for_changes mc in
    Ok {| Module_Name := module_name;
          Total_Commits := List.length mc;
          Total_Bugs := count_true is_bug mc;
          Total_PRs := count_true is_pr mc;
          Weekly_Deployment_Frequency := freq;
          Change_Failure_Rate := rate;
          Mean_Time_to_Recovery := mttr;
          Lead_Time_for_Changes := lead |}.

(** Lines 97-103 of [main]: one report per discovered component. *)
Fixpoint reports_for (df : DataFrame) (components : list string)
  : result (list MetricReport) :=
  match components with
  | [] => Ok []
  | component :: rest =>
      dora_metrics <- calculate_dora_metrics df component ;;
      results <- reports_for df rest ;;
      Ok (dora_metrics :: results)
  end.

Definition main (records : list Row) : result (list MetricReport) :=
  let df := load_data records in
  reports_for df (extract_components df).

Definition hour : Z := 3600000000000.

Definition ev (t : Z) (m : string) : Row := mkRow (Some t) (Some m).
Definition ev_nat (m : string) : Row := mkRow None (Some m).

End Analyze.


(** ** The specification's wording, for comparison with the code *)

Module Spec.

Import Py Pandas PyStr Analyze.
Local Open Scope string_scope.
Local Open Scope bool_scope.

(** [t] occurs in [m] as a substring once case is ignored. *)
Definition occurs_ci (t m : string) : Prop :=
  exists pre suf, lower m = pre ++ lower t ++ suf.

(** Some term of the vocabulary occurs in the message. *)
Definition any_term (vocabulary : list string) (m : string) : Prop :=
  exists t, In t vocabulary /\ occurs_ci t m.

(** The commit falls into week [w]; a commit without a timestamp falls
    into no week. *)
Definition in_week (w : Z) (c : Commit) : bool :=
  match to_period_W (c_date c) with
  | Some w' => (w' =? w)%Z
  | None => false
  end.

Definition has_timestamp (c : Commit) : bool :=
  match c_date c with
  | Some _ => true
  | None => false
  end.

(** The number of deployments of the list that fall into week [w]. *)
Definition deployments_in_week (w : Z) (l : list Commit) : nat :=
  List.length (filter (fun c => is_deployment c && in_week w c) l).

(** The number of keys equal to [w]; a missing key equals none. *)
Definition key_is (w : Z) (k : option Z) : bool :=
  match k with
  | Some w' => (w' =? w)%Z
  | None => false
  end.

Definition key_count (w : Z) (keys : list (option Z)) : nat :=
  List.length (filter (key_is w) keys).

Definition key_present (k : option Z) : bool :=
  match k with
  | Some _ => true
  | None => false
  end.

Definition total_size (g : list (Z * nat)) : nat :=
  fold_right (fun e n => (snd e + n)%nat) 0%nat g.

(** [g] holds, for exactly the weeks that occur among the keys and in
    ascending order, the number of keys of that week. *)
Definition groups_of (g : list (Z * nat)) (keys : list (option Z)) : Prop :=
  StronglySorted Z.lt (map fst g) /\
  (forall k n, In (k, n) g -> n = key_count k keys /\ (1 <= n)%nat) /\
  (forall k, (1 <= key_count k keys)%nat -> In k (map fst g)) /\
  total_size g = List.length (filter key_present keys).

(** The duration in hours between two commits as line 57 computes it,
    in whole microseconds. *)
Definition duration_hours (later earlier : Commit) : pyfloat :=
  hours (total_seconds (ts_sub (c_date later) (c_date earlier))).

(** The exact duration in hours between two commits. *)
Definition exact_hours (later earlier : Commit) : pyfloat :=
  hours (dt_total_seconds (ts_sub (c_date later) (c_date earlier))).

(** The first deployment in a list of commits. *)
Fixpoint first_deployment (l : list Commit) : option Commit :=
  match l with
  | [] => None
  | c :: l' => if is_deployment c then Some c else first_deployment l'
  end.

(** Recovery samples by position: every failure is paired with the first
    deployment at a later position, and only positive durations count. *)
Fixpoint recovery_samples (l : list Commit) : list pyfloat :=
  match l with
  | [] => []
  | c :: l' =>
      if is_failure c then
        match first_deployment l' with
        | Some d =>
            if fgt (duration_hours d c) fzero
            then duration_hours d c :: recovery_samples l'
            else recovery_samples l'
        | None => recovery_samples l'
        end
      else recovery_samples l'
  end.

(** The arithmetic mean of the samples, 0 when there is none. *)
Definition mean_or_zero (l : list pyfloat) : pyfloat :=
  match l with
  | [] => fzero
  | _ :: _ => Fin (Qsum (dropna l) / inject_Z (Z.of_nat (List.length l)))
  end.

(** Stable insertion into a list sorted by ascending timestamp. *)
Fixpoint insert_by_time (t : Z) (c : Commit) (l : list (Z * Commit))
  : list (Z * Commit) :=
  match l with
  | [] => [(t, c)]
  | (t', c') :: l' =>
      if (t <=? t')%Z then (t, c) :: l else (t', c') :: insert_by_time t c l'
  end.

(** The commits that have a timestamp, in chronological order. *)
Fixpoint sort_by_time (l : list Commit) : list (Z * Commit) :=
  match l with
  | [] => []
  | c :: l' =>
      match c_date c with
      | Some t => insert_by_time t c (sort_by_time l')
      | None => sort_by_time l'
      end
  end.

(** The recovery samples of the specification: as [recovery_samples],
    with exact durations. *)
Fixpoint exact_samples (l : list Commit) : list pyfloat :=
  match l with
  | [] => []
  | c :: l' =>
      if is_failure c then
        match first_deployment l' with
        | Some d =>
            if fgt (exact_hours d c) fzero
            then exact_hours d c :: exact_samples l'
            else exact_samples l'
        | None => exact_samples l'
        end
      else exact_samples l'
  end.

(** Mean time to recovery as the specification words it: over the commits
    sorted by timestamp, those without one left out. *)
Definition mttr_sorted (l : list Commit) : pyfloat :=
  mean_or_zero (exact_samples (map snd (sort_by_time l))).

(** Lead time as the specification words it: every deployment against
    every commit of the component. *)
Definition cross_join (l : list Commit) : list pyfloat :=
  flat_map (fun d => map (fun c => exact_hours d c) l)
           (filter is_deployment l).

Definition lead_time_cross_join (l : list Commit) : pyfloat :=
  match filter is_deployment l with
  | [] => fzero
  | _ :: _ => series_mean (cross_join l)
  end.

(** [t] is the duration of a pair of rows of the frame: a row and a
    deployment labelled after it, both with a timestamp, the duration
    positive. *)
Definition sample_of (mc : Series Commit) (t : pyfloat) : Prop :=
  exists i f j d tf td,
    In (i, f) mc /\ In (j, d) mc /\ (i < j)%nat /\
    is_deployment d = true /\
    c_date f = Some tf /\ c_date d = Some td /\
    t = duration_hours d f /\ fgt t fzero = true.

(** The report whose counts and metrics are all zero. *)
Definition zero_report (name : string) : MetricReport :=
  {| Module_Name := name;
     Total_Commits := 0;
     Total_Bugs := 0;
     Total_PRs := 0;
     Weekly_Deployment_Frequency := fzero;
     Change_Failure_Rate := fzero;
     Mean_Time_to_Recovery := fzero;
     Lead_Time_for_Changes := fzero |}.

(** The component an event belongs to: the first bracketed tag of its
    message. *)
Definition component_of (r : Row) : option string :=
  str_extract (message r).

(** The row labelled [i] is among those the report of component [c] is
    computed from. *)
Definition counted_in (df : DataFrame) (c : string) (i : nat) : Prop :=
  In i (index (module_commits df c)).

(** No row is counted for two different discovered components. *)
Definition one_component_per_event (records : list Row) : Prop :=
  let df := load_data records in
  forall c1 c2 i,
    In c1 (extract_components df) -> In c2 (extract_components df) ->
    counted_in df c1 i -> counted_in df c2 i -> c1 = c2.

(** The character [c] occurs in [s]. *)
Fixpoint mentions (c : ascii) (s : string) : bool :=
  match s with
  | EmptyString => false
  | String a s' => Ascii.eqb a c || mentions c s'
  end.

(** The message of the record holds no opening bracket. *)
Definition untagged (r : Row) : bool :=
  match message r with
  | Some m => negb (mentions "[" m)
  | None => true
  end.

(** The record [r], if dated, is not later than the instant [t]. *)
Definition not_later (t : Timestamp) (r : Row) : bool :=
  match t, date r with
  | Some a, Some b => (b <=? a)%Z
  | _, _ => true
  end.

(** The dated records of the log run from the newest to the oldest. *)
Fixpoint newest_first (records : list Row) : bool :=
  match records with
  | [] => true
  | r :: rest => forallb (not_later (date r)) rest && newest_first rest
  end.

(** A deployment that has a timestamp. *)
Definition dated_deployment (c : Commit) : bool :=
  is_deployment c && has_timestamp c.

(** The entry of line 67 for one row: a deployment minus itself, and
    nothing for another row. *)
Definition own_lead (c : Commit) : pyfloat :=
  if is_deployment c
  then hours (dt_total_seconds (ts_sub (c_date c) (c_date c)))
  else NaN.

(** The difference [d] of two timestamps is a duration other than NaT. *)
Definition in_timedelta_range (d : Z) : bool :=
  (int64_min <? d)%Z && (d <=? int64_max)%Z.

(** Any two dated rows of the frame are less than 2^63 nanoseconds (about
    292 years) apart. *)
Definition dates_within_range (mc : Series Commit) : Prop :=
  forall i f j d x y,
    In (i, f) mc -> In (j, d) mc ->
    c_date f = Some x -> c_date d = Some y ->
    in_timedelta_range (y - x) = true.

(** The same for the records of a log, as a test. *)
Definition span_ok (x : Z) (r : Row) : bool :=
  match date r with
  | Some y => in_timedelta_range (y - x) && in_timedelta_range (x - y)
  | None => true
  end.

Definition within_range (records : list Row) : bool :=
  forallb (fun r => match date r with
                    | Some x => forallb (span_ok x) records
                    | None => true
                    end) records.

(** The four numeric fields of a report are numbers. *)
Definition all_finite (rep : MetricReport) : bool :=
  is_finite (Weekly_Deployment_Frequency rep)
  && is_finite (Change_Failure_Rate rep)
  && is_finite (Mean_Time_to_Recovery rep)
  && is_finite (Lead_Time_for_Changes rep).

End Spec.

(** ** Facts about the matchers *)

Module PyStrFacts.

Import PyStr Spec.
Local Open Scope string_scope.
Local Open Scope bool_scope.

Lemma lower_app (a b : string) : lower (a ++ b) = lower a ++ lower b.
Proof.
  induction a as [|c a IH]; simpl; [reflexivity | now rewrite IH].
Qed.

Lemma match_literal_ci_spec (p s : string) :
  match_literal_ci p s = true <-> exists suf, lower s = lower p ++ suf.
Proof.
  revert s; induction p as [|a p IH]; intros s; simpl.
  - split; [intros _; now exists (lower s) | reflexivity].
  - destruct s as [|b s]; simpl.
    + split; [discriminate | intros [suf H]; discriminate].
    + rewrite andb_true_iff, Ascii.eqb_eq, IH. split.
      * intros [Hc [suf Hs]]. exists suf. now rewrite Hc, Hs.
      * intros [suf H]. injection H as Hc Hs. split; [congruence | now exists suf].
Qed.

Lemma match_literal_ci_fold (p q s : string) :
  lower p = lower q -> match_literal_ci p s = match_literal_ci q s.
Proof.
  intros H. apply eq_true_iff_eq.
  now rewrite !match_literal_ci_spec, H.
Qed.

Lemma match_literal_ci_prefix (p suf : string) :
  match_literal_ci p (p ++ suf) = true.
Proof.
  apply match_literal_ci_spec. exists (lower suf). apply lower_app.
Qed.

Lemma existsb_match_spec (alts : list string) (s : string) :
  existsb (fun p => match_literal_ci p s) alts = true <->
  exists t, In t alts /\ exists suf, lower s = lower t ++ suf.
Proof.
  rewrite existsb_exists. split; intros [t [Hin H]]; exists t;
    (split; [exact Hin | now apply match_literal_ci_spec]).
Qed.

Lemma re_search_ci_spec (alts : list string) (s : string) :
  re_search_ci alts s = true <-> exists t, In t alts /\ occurs_ci t s.
Proof.
  induction s as [|c s IH]; simpl.
  - rewrite orb_false_r, existsb_match_spec. split.
    + intros [t [Hin [suf H]]]. exists t; split; [exact Hin|].
      now exists EmptyString, suf.
    + intros [t [Hin [pre [suf H]]]]. exists t; split; [exact Hin|].
      destruct pre; simpl in H; [now exists suf | discriminate].
  - rewrite orb_true_iff, existsb_match_spec, IH. split.
    + intros [[t [Hin [suf H]]] | [t [Hin [pre [suf H]]]]]; exists t;
        (split; [exact Hin|]).
      * now exists EmptyString, suf.
      * exists (String (lower_char c) pre), suf. simpl. now rewrite H.
    + intros [t [Hin [pre [suf H]]]]. destruct pre as [|a pre]; simpl in H.
      * left. exists t; split; [exact Hin | now exists suf].
      * right. injection H as _ H. exists t; split; [exact Hin|].
        now exists pre, suf.
Qed.

Lemma re_search_ci_fold (p q s : string) :
  lower p = lower q -> re_search_ci [p] s = re_search_ci [q] s.
Proof.
  intros H. induction s as [|c s IH]; simpl;
    rewrite (match_literal_ci_fold p q _ H); [reflexivity | now rewrite IH].
Qed.

Lemma re_search_ci_none (alts : list string) (s : string) :
  (forall t, In t alts -> ~ occurs_ci t s) -> re_search_ci alts s = false.
Proof.
  intros H. apply not_true_is_false. rewrite re_search_ci_spec.
  intros [t [Hin Hocc]]. exact (H t Hin Hocc).
Qed.

Lemma span_not_rbracket_app (s body rest : string) :
  span_not_rbracket s = (body, rest) -> s = body ++ rest.
Proof.
  revert body rest; induction s as [|c s IH]; intros body rest; simpl.
  - intros H; injection H as <- <-; reflexivity.
  - destruct (Ascii.eqb c "]").
    + intros H; injection H as <- <-; reflexivity.
    + destruct (span_not_rbracket s) as [b r].
      intros H; injection H as <- <-. simpl. now rewrite (IH b r).
Qed.

Lemma span_not_rbracket_rest (s body rest : string) :
  span_not_rbracket s = (body, rest) ->
  rest = EmptyString \/ exists rest', rest = String "]" rest'.
Proof.
  revert body rest; induction s as [|c s IH]; intros body rest; simpl.
  - intros H; injection H as <- <-; now left.
  - destruct (Ascii.eqb c "]") eqn:E.
    + intros H; injection H as <- <-. apply Ascii.eqb_eq in E; subst c.
      right; now exists s.
    + destruct (span_not_rbracket s) as [b r].
      intros H; injection H as <- <-. now apply (IH b r).
Qed.

Lemma re_search_ci_tail (alts : list string) (c : ascii) (s : string) :
  re_search_ci alts s = true -> re_search_ci alts (String c s) = true.
Proof.
  intros H. simpl. rewrite H. apply orb_true_r.
Qed.

(** The tag found by [extract_components] occurs, with its brackets, in
    the message it was found in. *)
Lemma re_extract_first_bracketed (s t : string) :
  re_extract_first s = Some t -> re_search_ci [bracketed t] s = true.
Proof.
  induction s as [|c s IH]; simpl; [discriminate|].
  intros H.
  destruct (Ascii.eqb c "[") eqn:Ec.
  - destruct (span_not_rbracket s) as [body rest] eqn:Es.
    destruct body as [|b body]; [apply orb_true_iff; right; auto|].
    destruct rest as [|r rest]; [apply orb_true_iff; right; auto|].
    injection H as <-.
    apply Ascii.eqb_eq in Ec; subst c.
    destruct (span_not_rbracket_rest _ _ _ Es) as [Hr | [rest' Hr]];
      [discriminate|]. injection Hr as -> ->.
    apply span_not_rbracket_app in Es. subst s.
    apply orb_true_iff; left. simpl. rewrite orb_false_r.
    change (match_literal_ci (bracketed (String b body))
              (String "[" (String b body ++ String "]" rest')) = true).
    unfold bracketed.
    replace (String "[" (String b body ++ String "]" rest'))
      with (String "[" (String b body ++ "]") ++ rest').
    + apply match_literal_ci_prefix.
    + simpl. f_equal. f_equal. clear. induction body as [|x body IH]; simpl;
        [reflexivity | now rewrite IH].
  - apply orb_true_iff; right; auto.
Qed.

End PyStrFacts.

(** ** Facts about the pandas fragment *)

Module PandasFacts.

Import Py Pandas.

Lemma loc_in_index {A : Type} (s : Series A) (idx : nat) :
  In idx (index s) -> exists a, loc s idx = Ok a /\ In (idx, a) s.
Proof.
  induction s as [|[i a] s IH]; simpl; [contradiction|].
  intros H. destruct (Nat.eqb_spec i idx) as [->|Hne].
  - exists a; split; [reflexivity | now left].
  - destruct H as [H|H]; [contradiction|].
    destruct (IH H) as [b [Hb Hin]]. exists b; split; [exact Hb | now right].
Qed.

Lemma get_in {A : Type} (s : Series A) (idx : nat) (a : A) :
  get s idx = Some a -> In (idx, a) s.
Proof.
  induction s as [|[i b] s IH]; simpl; [discriminate|].
  destruct (Nat.eqb_spec i idx) as [->|Hne].
  - intros H; injection H as ->; now left.
  - intros H; right; auto.
Qed.

(** With distinct labels a row is found under its label. *)
Lemma in_get {A : Type} (s : Series A) (idx : nat) (a : A) :
  NoDup (index s) -> In (idx, a) s -> get s idx = Some a.
Proof.
  induction s as [|[i b] s IH]; simpl; [contradiction|].
  intros Hnd Hin. inversion Hnd as [|? ? Hni Hnd']; subst.
  destruct (Nat.eqb_spec i idx) as [->|Hne].
  - destruct Hin as [Hin|Hin]; [congruence|].
    exfalso; apply Hni. change idx with (fst (idx, a)). now apply in_map.
  - destruct Hin as [Hin|Hin]; [congruence | auto].
Qed.

Lemma fgt_zero_inv (t : pyfloat) :
  fgt t fzero = true -> exists q, t = Fin q /\ 0 < q.
Proof.
  destruct t as [q|]; simpl; [|discriminate].
  intros H. exists q; split; [reflexivity|].
  apply negb_true_iff in H. apply Qnot_le_lt. intros Hle.
  apply Qle_bool_iff in Hle. congruence.
Qed.

Lemma hours_seconds_fin (d : Timedelta) (q : Q) :
  hours (total_seconds d) = Fin q -> exists ns, d = Some ns.
Proof.
  destruct d as [ns|]; simpl; [now exists ns | discriminate].
Qed.

Lemma ts_sub_some (a b : Timestamp) (ns : Z) :
  ts_sub a b = Some ns -> exists x y, a = Some x /\ b = Some y /\ ns = (x - y)%Z.
Proof.
  destruct a as [x|], b as [y|]; simpl; try discriminate.
  intros H; injection H as <-. now exists x, y.
Qed.

Lemma fadd_fin_fold (l : list pyfloat) (a : Q) :
  Forall (fun t => is_finite t = true) l ->
  exists q, fold_left fadd l (Fin a) = Fin q /\ q == a + Qsum (dropna l).
Proof.
  revert a; induction l as [|t l IH]; intros a Hall; simpl.
  - exists a; split; [reflexivity | unfold Qsum; simpl; ring].
  - inversion Hall as [|? ? Ht Hl]; subst.
    destruct t as [b|]; [|discriminate]. simpl.
    destruct (IH (a + b) Hl) as [q [Hq Heq]].
    exists q; split; [exact Hq|]. rewrite Heq. unfold Qsum; simpl. ring.
Qed.

Lemma py_sum_fin (l : list pyfloat) :
  Forall (fun t => is_finite t = true) l ->
  exists q, py_sum l = Fin q /\ q == Qsum (dropna l).
Proof.
  intros H. destruct (fadd_fin_fold l 0 H) as [q [Hq Heq]].
  exists q; split; [exact Hq | rewrite Heq; ring].
Qed.

Lemma of_int_succ_nonzero (n : nat) :
  Qeq_bool (inject_Z (Z.of_nat (S n))) 0 = false.
Proof.
  apply not_true_is_false. intros H. apply Qeq_bool_iff in H.
  unfold Qeq in H; simpl in H. lia.
Qed.

Lemma py_div_of_int (a : Q) (n : nat) :
  (0 < n)%nat ->
  py_div (Fin a) (of_int n) = Ok (Fin (a / inject_Z (Z.of_nat n))).
Proof.
  intros Hn. destruct n as [|n]; [lia|].
  unfold py_div, of_int. now rewrite of_int_succ_nonzero.
Qed.

End PandasFacts.

(** ** Facts about the analyzer *)

Module AnalyzeFacts.

Import Py Pandas PyStr Analyze Spec PandasFacts PyStrFacts.
Local Open Scope string_scope.
Local Open Scope bool_scope.

Lemma index_select_incl {A : Type} (p : A -> bool) (s : Series A) (i : nat) :
  In i (index (select p s)) -> In i (index s).
Proof.
  unfold index, select. rewrite !in_map_iff.
  intros [r [Hr Hin]]. apply filter_In in Hin. exists r; tauto.
Qed.

Lemma duration_positive_dates (d f : Commit) :
  fgt (duration_hours d f) fzero = true ->
  exists td tf, c_date d = Some td /\ c_date f = Some tf.
Proof.
  intros H. apply fgt_zero_inv in H. destruct H as [q [Hq _]].
  unfold duration_hours in Hq. apply hours_seconds_fin in Hq.
  destruct Hq as [ns Hns]. apply ts_sub_some in Hns.
  destruct Hns as [x [y [Hx [Hy _]]]]. now exists x, y.
Qed.

(** With the subtraction taken without its range check, the loop of lines
    52-59 never raises, and everything it appends is the duration of a pair
    of rows with timestamps. *)
Lemma recovery_loop_total (mc : Series Commit) (indices : list nat) :
  (forall idx, In idx indices -> In idx (index mc)) ->
  forall acc, exists rts,
    recovery_loop mc indices acc = Ok rts /\
    forall t, In t rts -> In t acc \/ sample_of mc t.
Proof.
  induction indices as [|idx rest IH]; intros Hidx acc; simpl.
  - exists acc; split; [reflexivity | auto].
  - assert (Hrest : forall i, In i rest -> In i (index mc))
      by (intros i Hi; apply Hidx; now right).
    destruct (loc_in_index mc idx (Hidx idx (or_introl eq_refl)))
      as [f [Hloc Hf]].
    rewrite Hloc; simpl.
    destruct (subsequent_recoveries mc idx) as [|[j d] later] eqn:El; simpl.
    + apply (IH Hrest).
    + assert (Hd : In (j, d) (subsequent_recoveries mc idx))
        by (rewrite El; now left).
      unfold subsequent_recoveries in Hd. apply filter_In in Hd.
      destruct Hd as [Hd Hc]. simpl in Hc. apply andb_true_iff in Hc.
      destruct Hc as [Hlt Hdep]. apply Nat.ltb_lt in Hlt.
      unfold iloc; simpl.
      destruct (fgt (hours (total_seconds (ts_sub (c_date d) (c_date f))))
                    fzero) eqn:Eg.
      * destruct (IH Hrest
                    (acc ++ [hours (total_seconds (ts_sub (c_date d) (c_date f)))])%list)
          as [rts [Hr Hin]].
        exists rts; split; [exact Hr|].
        intros t Ht. destruct (Hin t Ht) as [Ha|Hs]; [|now right].
        apply in_app_or in Ha. destruct Ha as [Ha|[<-|[]]]; [now left|].
        right. destruct (duration_positive_dates d f Eg) as [td [tf [Htd Htf]]].
        exists idx, f, j, d, tf, td. repeat split; auto.
      * apply (IH Hrest).
Qed.

Lemma recovery_times_total (mc : Series Commit) :
  exists rts, recovery_times mc = Ok rts /\ Forall (sample_of mc) rts.
Proof.
  destruct (recovery_loop_total mc (failure_indices mc)
              (fun i => index_select_incl is_failure mc i) [])
    as [rts [Hr Hin]].
  exists rts; split; [exact Hr|]. apply Forall_forall. intros t Ht.
  destruct (Hin t Ht) as [[]|Hs]; exact Hs.
Qed.

Lemma sample_of_finite (mc : Series Commit) (t : pyfloat) :
  sample_of mc t -> is_finite t = true.
Proof.
  intros (i & f & j & d & tf & td & _ & _ & _ & _ & _ & _ & _ & Hg).
  apply fgt_zero_inv in Hg. destruct Hg as [q [-> _]]. reflexivity.
Qed.

Lemma samples_finite (mc : Series Commit) (rts : list pyfloat) :
  Forall (sample_of mc) rts -> Forall (fun t => is_finite t = true) rts.
Proof.
  intros H. eapply Forall_impl; [|exact H]. apply sample_of_finite.
Qed.

(** Line 61 on a list of finite samples. *)
Lemma mean_of_recoveries_finite (rts : list pyfloat) :
  Forall (fun t => is_finite t = true) rts ->
  exists q, mean_of_recoveries rts = Ok (Fin q) /\
            feq (Fin q) (mean_or_zero rts).
Proof.
  intros Hall. destruct rts as [|t rts].
  - exists 0; split; [reflexivity | simpl; reflexivity].
  - destruct (py_sum_fin (t :: rts) Hall) as [q [Hq Heq]].
    exists (q / inject_Z (Z.of_nat (List.length (t :: rts)))). split.
    + unfold mean_of_recoveries. rewrite Hq.
      apply py_div_of_int. simpl; lia.
    + unfold mean_or_zero, feq. now rewrite Heq.
Qed.

Lemma mean_time_to_recovery_total (mc : Series Commit) :
  exists rts q,
    recovery_times mc = Ok rts /\ Forall (sample_of mc) rts /\
    mean_time_to_recovery mc = Ok (Fin q) /\
    feq (Fin q) (mean_or_zero rts).
Proof.
  destruct (recovery_times_total mc) as [rts [Hr Hs]].
  destruct (mean_of_recoveries_finite rts (samples_finite mc rts Hs))
    as [q [Hq Hm]].
  exists rts, q. repeat split; auto.
  unfold mean_time_to_recovery. rewrite Hr. exact Hq.
Qed.

(** Lines 44-46: the division is guarded, so it never raises. *)
Lemma change_failure_rate_eq (mc : Series Commit) :
  change_failure_rate mc =
  Ok (if (0 <? deployment_count mc)%nat
      then Fin (inject_Z (Z.of_nat (failure_count mc))
                / inject_Z (Z.of_nat (deployment_count mc)) * 100)
      else fzero).
Proof.
  unfold change_failure_rate.
  destruct (Nat.ltb_spec 0 (deployment_count mc)) as [Hpos|Hz];
    [|reflexivity].
  unfold of_int at 1. rewrite (py_div_of_int _ _ Hpos). reflexivity.
Qed.

(** The report is assembled from the seven computations, none of which
    raises on a text message column and without the range check of line
    57 (for which see [calculate_dora_metrics_checked]). *)
Lemma calculate_dora_metrics_total (df : DataFrame) (name : string) :
  exists rate mttr,
    change_failure_rate (module_commits df name) = Ok (Fin rate) /\
    mean_time_to_recovery (module_commits df name) = Ok (Fin mttr) /\
    calculate_dora_metrics df name =
    Ok {| Module_Name := name;
          Total_Commits := List.length (module_commits df name);
          Total_Bugs := count_true is_bug (module_commits df name);
          Total_PRs := count_true is_pr (module_commits df name);
          Weekly_Deployment_Frequency :=
            weekly_deployment_freq (module_commits df name);
          Change_Failure_Rate := Fin rate;
          Mean_Time_to_Recovery := Fin mttr;
          Lead_Time_for_Changes :=
            lead_time_for_changes (module_commits df name) |}.
Proof.
  destruct (mean_time_to_recovery_total (module_commits df name))
    as (rts & q & _ & _ & Hm & _).
  pose proof (change_failure_rate_eq (module_commits df name)) as Hr.
  unfold calculate_dora_metrics.
  destruct (0 <? deployment_count (module_commits df name))%nat;
    eexists; exists q; (split; [exact Hr|]); (split; [exact Hm|]);
    rewrite Hr, Hm; reflexivity.
Qed.

End AnalyzeFacts.

(** ** The properties of the metrics engine *)

Module Dora.

Import Py Pandas PyStr Analyze Spec PandasFacts PyStrFacts AnalyzeFacts.
Local Open Scope string_scope.
Local Open Scope bool_scope.
Local Open Scope list_scope.

Lemma values_load_data (records : list Row) :
  values (load_data records) = records.
Proof.
  unfold values, load_data. generalize 0%nat.
  induction records as [|r records IH]; intros k; simpl;
    [reflexivity | now rewrite IH].
Qed.

Lemma index_load_data (records : list Row) :
  index (load_data records) = seq 0 (List.length records).
Proof.
  unfold index, load_data. generalize 0%nat.
  induction records as [|r records IH]; intros k; simpl;
    [reflexivity | now rewrite IH].
Qed.

(** A label count of the filtered frame is a count over the records that
    looks at their messages only. *)
Lemma count_true_module_commits (col : Commit -> bool) (df : DataFrame)
      (name : string) :
  count_true col (module_commits df name) =
  List.length
    (filter (fun r => module_filter name r && col (classify r)) (values df)).
Proof.
  unfold count_true, module_commits, select, values.
  induction df as [|[i r] df IH]; simpl; [reflexivity|].
  destruct (module_filter name r); simpl; [|exact IH].
  destruct (col (classify r)); simpl; now rewrite IH.
Qed.

Lemma length_module_commits (df : DataFrame) (name : string) :
  List.length (module_commits df name) =
  List.length (filter (module_filter name) (values df)).
Proof.
  unfold module_commits, select, values. rewrite length_map.
  induction df as [|[i r] df IH]; simpl; [reflexivity|].
  destruct (module_filter name r); simpl; now rewrite IH.
Qed.

Lemma classify_label (vocabulary : list string) (m : string) :
  str_contains vocabulary (Some m) = true <-> any_term vocabulary m.
Proof.
  simpl. apply re_search_ci_spec.
Qed.

(** C7: the classifier sets each of the four labels exactly when some term
    of that label's vocabulary occurs in the message as a substring, case
    ignored; "bug" belongs to two vocabularies and sets both labels; when
    no term occurs all four labels are false. *)
Theorem classifier_labels (d : Timestamp) (m : string) :
  let c := classify (mkRow d (Some m)) in
  (is_deployment c = true <->
   any_term ["deploy"; "release"; "bump"; "update"; "version"] m) /\
  (is_failure c = true <->
   any_term ["bug"; "rollback"; "hotfix"; "revert"; "patch"] m) /\
  (is_bug c = true <-> any_term ["bug"; "error"; "issue"] m) /\
  (is_pr c = true <-> any_term ["PR"; "pull request"] m) /\
  (occurs_ci "bug" m -> is_failure c = true /\ is_bug c = true) /\
  ((forall t,
       In t (deployment_keywords ++ failure_keywords
             ++ bug_keywords ++ pr_keywords)%list ->
       ~ occurs_ci t m) ->
   is_deployment c = false /\ is_failure c = false /\
   is_bug c = false /\ is_pr c = false).
Proof.
  cbn zeta. unfold classify; cbn [is_deployment is_failure is_bug is_pr message].
  split; [exact (classify_label deployment_keywords m)|].
  split; [exact (classify_label failure_keywords m)|].
  split; [exact (classify_label bug_keywords m)|].
  split; [exact (classify_label pr_keywords m)|].
  split; [intros Hbug; split | intros H; repeat split].
  - apply classify_label. exists "bug"; split; [now left | assumption].
  - apply classify_label. exists "bug"; split; [now left | assumption].
  - apply re_search_ci_none. intros t Ht. apply H, in_or_app. now left.
  - apply re_search_ci_none. intros t Ht. apply H, in_or_app. right.
    apply in_or_app. now left.
  - apply re_search_ci_none. intros t Ht. apply H, in_or_app. right.
    apply in_or_app. right. apply in_or_app. now left.
  - apply re_search_ci_none. intros t Ht. apply H, in_or_app. right.
    apply in_or_app. right. apply in_or_app. now right.
Qed.

(** The classifier on a message in capitals, and on one without any term. *)
Example classify_bug_shouted :
  classify (ev 0 "[Auth] Fixed BUG in login") =
  mkCommit (Some 0%Z) (Some "[Auth] Fixed BUG in login") false true true false.
Proof. reflexivity. Qed.

Example classify_updates_inside_word :
  is_deployment (classify (ev 0 "[ui] nightly UPDATES")) = true /\
  is_pr (classify (ev 0 "[ui] improve layout")) = true /\
  classify (ev 0 "[ui] tidy") =
  mkCommit (Some 0%Z) (Some "[ui] tidy") false false false false.
Proof. repeat split. Qed.

(** C6: the change-failure rate is failure count over deployment count
    times 100 when there is a deployment and 0 otherwise; the two counts
    are taken independently over the component's records; the rate is not
    capped and exceeds 100 on some log. *)
Theorem change_failure_rate_uncapped :
  (forall (records : list Row) (name : string),
      let mc := module_commits (load_data records) name in
      let labelled (vocabulary : list string) :=
        List.length
          (filter (fun r => module_filter name r
                            && str_contains vocabulary (message r)) records) in
      exists rep,
        calculate_dora_metrics (load_data records) name = Ok rep /\
        deployment_count mc = labelled deployment_keywords /\
        failure_count mc = labelled failure_keywords /\
        Change_Failure_Rate rep =
        if (0 <? deployment_count mc)%nat
        then Fin (inject_Z (Z.of_nat (failure_count mc))
                  / inject_Z (Z.of_nat (deployment_count mc)) * 100)
        else Fin 0) /\
  (exists rep,
      calculate_dora_metrics
        (load_data [ev 0 "[X] hotfix"; ev 1 "[X] revert"; ev 2 "[X] release"])
        "X" = Ok rep /\
      feq (Change_Failure_Rate rep) (Fin 200)).
Proof.
  split.
  - intros records name mc labelled.
    destruct (calculate_dora_metrics_total (load_data records) name)
      as (rate & mttr & Hr & _ & Hc).
    eexists; split; [exact Hc|].
    unfold deployment_count, failure_count, labelled, mc.
    rewrite !count_true_module_commits, values_load_data.
    repeat split. cbn [Change_Failure_Rate].
    pose proof (change_failure_rate_eq (module_commits (load_data records) name))
      as He.
    rewrite Hr in He. unfold deployment_count, failure_count in He.
    rewrite !count_true_module_commits, values_load_data in He.
    injection He as He. rewrite He. reflexivity.
  - eexists; split; [vm_compute; reflexivity | vm_compute; reflexivity].
Qed.

(** C9: the computation does raise on inputs it can receive.  On a frame
    whose message column is not text (a file in which every message cell
    is empty) the [.str] accessor of line 21 raises AttributeError; on a
    log with a bug dated 1700-01-01 and a later release dated 2100-01-01,
    both valid timestamps, the subtraction of line 57 leaves the range of a
    duration and raises OutOfBoundsDatetime. *)
Theorem metrics_raise_on_valid_input :
  (forall df name,
      calculate_dora_metrics_checked false df name = Raise AttributeError) /\
  in_timedelta_range (-98615 * ns_per_day) = true /\
  in_timedelta_range (47482 * ns_per_day) = true /\
  calculate_dora_metrics_checked true
    (load_data [ev (-98615 * ns_per_day) "[X] bug in X";
                ev (47482 * ns_per_day) "[X] release v2"]) "X"
  = Raise OutOfBoundsDatetime.
Proof.
  split; [reflexivity|]. repeat split; vm_compute; reflexivity.
Qed.

(** C3: a component whose only deployment has no timestamp gets NaN as its
    weekly deployment frequency and as its lead time: the guards of lines
    38 and 65 count the deployment, and the means of lines 40 and 68 then
    run over no value at all. *)
Theorem nan_when_deployments_lack_timestamps :
  exists rep,
    calculate_dora_metrics (load_data [ev_nat "[X] release v2"]) "X" = Ok rep /\
    Total_Commits rep = 1%nat /\
    is_finite (Weekly_Deployment_Frequency rep) = false /\
    is_finite (Lead_Time_for_Changes rep) = false.
Proof.
  eexists; split; [vm_compute; reflexivity | repeat split].
Qed.

(** The two other metrics are finite on every log. *)
Lemma rate_and_recovery_finite (records : list Row) (name : string) :
  exists rep,
    calculate_dora_metrics (load_data records) name = Ok rep /\
    is_finite (Change_Failure_Rate rep) = true /\
    is_finite (Mean_Time_to_Recovery rep) = true.
Proof.
  destruct (calculate_dora_metrics_total (load_data records) name)
    as (rate & mttr & _ & _ & Hc).
  eexists; split; [exact Hc | split; reflexivity].
Qed.

(** *** Frames read from a file keep increasing labels *)

Lemma seq_increasing (start len : nat) : StronglySorted lt (seq start len).
Proof.
  revert start; induction len as [|len IH]; intros start; simpl;
    constructor; [apply IH|].
  apply Forall_forall. intros x Hx. apply in_seq in Hx. lia.
Qed.

Lemma load_data_increasing (records : list Row) :
  increasing (load_data records).
Proof.
  unfold increasing. rewrite index_load_data. apply seq_increasing.
Qed.

Lemma select_increasing {A : Type} (p : A -> bool) (s : Series A) :
  increasing s -> increasing (select p s).
Proof.
  unfold increasing, index, select.
  induction s as [|[i a] s IH]; simpl; intros H; [constructor|].
  apply StronglySorted_inv in H. destruct H as [Hs Hall].
  destruct (p a); simpl; [|now apply IH].
  constructor; [now apply IH|].
  rewrite Forall_forall in *. intros x Hx. apply Hall.
  apply in_map_iff in Hx. destruct Hx as [r [<- Hr]].
  apply filter_In in Hr. apply in_map. tauto.
Qed.

Lemma index_relabel {A B : Type} (f : A -> B) (s : Series A) :
  index (map (fun r => (fst r, f (snd r))) s) = index s.
Proof.
  unfold index. rewrite map_map. reflexivity.
Qed.

Lemma module_commits_increasing (records : list Row) (name : string) :
  increasing (module_commits (load_data records) name).
Proof.
  unfold increasing, module_commits. rewrite index_relabel.
  apply select_increasing, load_data_increasing.
Qed.

Lemma increasing_NoDup {A : Type} (s : Series A) :
  increasing s -> NoDup (index s).
Proof.
  unfold increasing. induction (index s) as [|i l IH]; intros H;
    constructor; apply StronglySorted_inv in H; destruct H as [Hs Hall].
  - intros Hin. rewrite Forall_forall in Hall. specialize (Hall i Hin). lia.
  - now apply IH.
Qed.

(** *** The lead time of lines 63-70 *)

Lemma Qsum_all_zero (l : list Q) :
  Forall (fun q => q == 0) l -> Qsum l == 0.
Proof.
  induction 1 as [|q l Hq _ IH]; unfold Qsum; simpl; [reflexivity|].
  fold (Qsum l). rewrite Hq, IH. reflexivity.
Qed.

Lemma series_mean_all_zero (l : list pyfloat) :
  Forall (fun v => v = NaN \/ exists q, v = Fin q /\ q == 0) l ->
  series_mean l = NaN \/ exists q, series_mean l = Fin q /\ q == 0.
Proof.
  intros H.
  assert (Hd : Forall (fun q => q == 0) (dropna l)).
  { induction H as [|v l Hv _ IH]; simpl; [constructor|].
    destruct Hv as [->|[q [-> Hq]]]; [exact IH | now constructor]. }
  unfold series_mean. destruct (dropna l) as [|v vs]; [now left|].
  right. eexists; split; [reflexivity|].
  rewrite (Qsum_all_zero _ Hd). unfold Qdiv. ring.
Qed.

(** The subtraction of line 67 pairs every deployment with its own row:
    each entry of [lead_times] is missing or zero. *)
Lemma lead_times_entries (mc : Series Commit) :
  increasing mc ->
  Forall (fun v => v = NaN \/ exists q, v = Fin q /\ q == 0)
         (values (lead_times mc)).
Proof.
  intros Hinc. apply Forall_forall. intros v Hv.
  unfold values, lead_times in Hv. rewrite map_map in Hv. cbn [snd] in Hv.
  unfold series_sub in Hv. rewrite map_map in Hv. cbn [snd] in Hv.
  apply in_map_iff in Hv. destruct Hv as [i [<- _]].
  destruct (get (date_column (select is_deployment mc)) i) as [x|] eqn:Ea;
    [|now left].
  apply get_in in Ea. unfold date_column in Ea. apply in_map_iff in Ea.
  destruct Ea as [[i' c] [Heq Hin]]. cbn in Heq. injection Heq as -> <-.
  unfold select in Hin. apply filter_In in Hin. destruct Hin as [Hin _].
  assert (Hb : get (date_column mc) i = Some (c_date c)).
  { apply in_get.
    - unfold date_column. rewrite index_relabel. now apply increasing_NoDup.
    - unfold date_column. apply in_map_iff. exists (i, c). split; auto. }
  rewrite Hb. destruct (c_date c) as [t|]; simpl; [|now left].
  right. eexists; split; [reflexivity|].
  rewrite Z.sub_diag. unfold Qdiv. change (inject_Z 0) with 0. ring.
Qed.

(** On every log the lead time is zero or NaN, whatever the timestamps. *)
Lemma lead_time_zero_or_nan (records : list Row) (name : string) :
  let lead := lead_time_for_changes (module_commits (load_data records) name) in
  lead = NaN \/ exists q, lead = Fin q /\ q == 0.
Proof.
  cbn zeta. unfold lead_time_for_changes.
  destruct (0 <? deployment_count _)%nat;
    [|right; exists 0; split; reflexivity].
  destruct (negb (empty _)); [|right; exists 0; split; reflexivity].
  apply series_mean_all_zero, lead_times_entries, module_commits_increasing.
Qed.

(** C1: on a log with a commit at hour 0 and a release at hour 5 the
    cross-join of the release against both commits has mean 2.5 hours, and
    the report says 0: line 67 subtracts two columns, which pandas aligns
    on their labels, so each deployment meets its own row only. *)
Theorem lead_time_is_not_cross_join :
  let records := [ev 0 "[X] fix"; ev (5 * hour) "[X] release v2"] in
  exists rep,
    calculate_dora_metrics (load_data records) "X" = Ok rep /\
    feq (Lead_Time_for_Changes rep) (Fin 0) /\
    feq (lead_time_cross_join (values (module_commits (load_data records) "X")))
        (Fin (5 # 2)).
Proof.
  eexists; split; [vm_compute; reflexivity | split; vm_compute; reflexivity].
Qed.

(** Without a deployment the lead time is 0, as the specification says. *)
Lemma lead_time_without_deployment (mc : Series Commit) :
  deployment_count mc = 0%nat -> lead_time_for_changes mc = Fin 0.
Proof.
  intros H. unfold lead_time_for_changes. now rewrite H.
Qed.

(** *** Component discovery and filtering *)

Lemma in_load_data (records : list Row) (i : nat) (r : Row) :
  In (i, r) (load_data records) <-> nth_error records i = Some r.
Proof.
  unfold load_data.
  assert (H : forall k, In (i, r) (combine (seq k (List.length records)) records)
                        <-> (k <= i)%nat /\ nth_error records (i - k) = Some r).
  { induction records as [|r0 records IH]; intros k; simpl.
    - split; [contradiction | intros [_ H]]. destruct (i - k)%nat; discriminate.
    - rewrite IH. split.
      + intros [H|[Hle Hn]].
        * injection H as -> ->. rewrite Nat.sub_diag. now split.
        * split; [lia|]. replace (i - k)%nat with (S (i - S k)) by lia.
          exact Hn.
      + intros [Hle Hn]. destruct (Nat.eq_dec k i) as [->|Hne].
        * rewrite Nat.sub_diag in Hn. injection Hn as ->. now left.
        * right. split; [lia|].
          replace (i - k)%nat with (S (i - S k)) in Hn by lia. exact Hn. }
  rewrite H, Nat.sub_0_r. split; [tauto | split; [lia | assumption]].
Qed.

Lemma in_module_commits (df : DataFrame) (name : string) (i : nat) :
  counted_in df name i <->
  exists r, In (i, r) df /\ module_filter name r = true.
Proof.
  unfold counted_in, module_commits. rewrite index_relabel.
  unfold index, select. rewrite in_map_iff. split.
  - intros [[j r] [<- Hin]]. apply filter_In in Hin. now exists r.
  - intros [r [Hin Hf]]. exists (i, r). split; [reflexivity|].
    apply filter_In. now split.
Qed.

Lemma module_filter_spec (name : string) (r : Row) :
  module_filter name r = true <->
  exists m, message r = Some m /\ occurs_ci (bracketed name) m.
Proof.
  unfold module_filter, str_contains. destruct (message r) as [m|].
  - rewrite re_search_ci_spec. split.
    + intros [t [[<-|[]] Hocc]]. now exists m.
    + intros [m' [Hm Hocc]]. injection Hm as <-.
      exists (bracketed name). split; [now left | assumption].
  - split; [discriminate | intros [m [Hm _]]; discriminate].
Qed.

(** A record is always selected for the tag [extract_components] reads
    from it. *)
Lemma first_tag_selected (r : Row) (c : string) :
  component_of r = Some c -> module_filter c r = true.
Proof.
  unfold component_of, str_extract, module_filter, str_contains.
  destruct (message r) as [m|]; [|discriminate].
  apply re_extract_first_bracketed.
Qed.

Lemma in_unique (x : string) (l : list string) : In x (unique l) <-> In x l.
Proof.
  induction l as [|y l IH]; simpl; [tauto|].
  rewrite filter_In, IH, negb_true_iff. split.
  - tauto.
  - intros [H|H]; [now left|]. destruct (String.eqb_spec y x) as [E|E];
      [now left | right; now split].
Qed.

Lemma in_dropna_str (x : string) (l : list (option string)) :
  In x (dropna_str l) <-> In (Some x) l.
Proof.
  induction l as [|[y|] l IH]; simpl; [tauto| |].
  - rewrite IH. split; (intros [H|H]; [left; congruence | now right]).
  - rewrite IH. split; [now right | intros [H|H]; [discriminate | exact H]].
Qed.

Lemma in_extract_components (df : DataFrame) (c : string) :
  In c (extract_components df) <->
  exists i r, In (i, r) df /\ component_of r = Some c.
Proof.
  unfold extract_components, component_column, component_of.
  rewrite in_unique, in_dropna_str, in_map_iff. split.
  - intros [[i r] [H Hin]]. now exists i, r.
  - intros [i [r [Hin H]]]. now exists (i, r).
Qed.

(** The two-tag log on which the invariant of C4 fails: the first record is
    counted for A, its first tag, and for B as well. *)
Lemma two_tags_counted_twice :
  ~ one_component_per_event [ev 0 "[A] one [B]"; ev 7 "[B] two"].
Proof.
  intros H. specialize (H "A" "B" 0%nat).
  assert (E : "A" = "B"); [|discriminate E].
  apply H; vm_compute; tauto.
Qed.

(** C4, as the code has it: a record is counted for a component exactly
    when the component's bracketed tag occurs somewhere in its message,
    case ignored; this includes the component its first tag names, and the
    total of the report counts these records. *)
Theorem counted_iff_tag_occurs (records : list Row) (name : string) :
  let df := load_data records in
  (forall i,
      counted_in df name i <->
      exists r m, nth_error records i = Some r /\ message r = Some m /\
                  occurs_ci (bracketed name) m) /\
  (forall i r,
      nth_error records i = Some r -> component_of r = Some name ->
      counted_in df name i) /\
  (exists rep,
      calculate_dora_metrics df name = Ok rep /\
      Total_Commits rep =
      List.length (filter (module_filter name) records)).
Proof.
  cbn zeta. split; [|split].
  - intros i. rewrite in_module_commits. split.
    + intros [r [Hin Hf]]. apply module_filter_spec in Hf.
      destruct Hf as [m [Hm Hocc]]. exists r, m.
      split; [now apply in_load_data | now split].
    + intros [r [m [Hn [Hm Hocc]]]]. exists r.
      split; [now apply in_load_data|].
      apply module_filter_spec. now exists m.
  - intros i r Hn Hc. apply in_module_commits. exists r.
    split; [now apply in_load_data | now apply first_tag_selected].
  - destruct (calculate_dora_metrics_total (load_data records) name)
      as (rate & mttr & _ & _ & Hc).
    eexists; split; [exact Hc|]. cbn [Total_Commits].
    now rewrite length_module_commits, values_load_data.
Qed.

(** *** Tags that differ in letter case *)

Lemma lower_bracketed (t1 t2 : string) :
  lower t1 = lower t2 -> lower (bracketed t1) = lower (bracketed t2).
Proof.
  intros H. unfold bracketed. simpl. now rewrite !lower_app, H.
Qed.

Lemma module_commits_fold (df : DataFrame) (t1 t2 : string) :
  lower t1 = lower t2 -> module_commits df t1 = module_commits df t2.
Proof.
  intros H. unfold module_commits, select. f_equal.
  apply filter_ext. intros [i r]. unfold module_filter, str_contains; simpl.
  destruct (message r) as [m|]; [|reflexivity].
  apply re_search_ci_fold, lower_bracketed, H.
Qed.

Lemma reports_for_total (df : DataFrame) (components : list string) :
  exists reports,
    reports_for df components = Ok reports /\
    forall c rep, In c components -> calculate_dora_metrics df c = Ok rep ->
                  In rep reports.
Proof.
  induction components as [|c0 components [reports [Hr Hin]]]; simpl.
  - exists []; split; [reflexivity | intros c rep []].
  - destruct (calculate_dora_metrics_total df c0) as (rate & mttr & _ & _ & Hc).
    rewrite Hc, Hr; simpl. eexists; split; [reflexivity|].
    intros c rep [<-|Hc'] Hrep.
    + left. congruence.
    + right. eapply Hin; eauto.
Qed.

(** C10: when two messages carry first tags that differ only in letter
    case, both tags are discovered as components, both select the same
    rows, and [main] emits for them two reports that agree on every field
    but the name. *)
Theorem case_variants_share_report
        (records : list Row) (r1 r2 : Row) (t1 t2 : string)
        (H1 : In r1 records) (H2 : In r2 records)
        (E1 : component_of r1 = Some t1) (E2 : component_of r2 = Some t2)
        (Hcase : lower t1 = lower t2) (Hne : t1 <> t2) :
  let df := load_data records in
  In t1 (extract_components df) /\ In t2 (extract_components df) /\
  module_commits df t1 = module_commits df t2 /\
  exists reports rep1 rep2,
    main records = Ok reports /\ In rep1 reports /\ In rep2 reports /\
    calculate_dora_metrics df t1 = Ok rep1 /\
    calculate_dora_metrics df t2 = Ok rep2 /\
    Module_Name rep1 = t1 /\ Module_Name rep2 = t2 /\
    Total_Commits rep1 = Total_Commits rep2 /\
    Total_Bugs rep1 = Total_Bugs rep2 /\
    Total_PRs rep1 = Total_PRs rep2 /\
    Weekly_Deployment_Frequency rep1 = Weekly_Deployment_Frequency rep2 /\
    Change_Failure_Rate rep1 = Change_Failure_Rate rep2 /\
    Mean_Time_to_Recovery rep1 = Mean_Time_to_Recovery rep2 /\
    Lead_Time_for_Changes rep1 = Lead_Time_for_Changes rep2.
Proof.
  cbn zeta.
  assert (D1 : In t1 (extract_components (load_data records))).
  { apply in_extract_components. apply In_nth_error in H1.
    destruct H1 as [i Hi]. exists i, r1. split; [now apply in_load_data | exact E1]. }
  assert (D2 : In t2 (extract_components (load_data records))).
  { apply in_extract_components. apply In_nth_error in H2.
    destruct H2 as [i Hi]. exists i, r2. split; [now apply in_load_data | exact E2]. }
  pose proof (module_commits_fold (load_data records) t1 t2 Hcase) as Hmc.
  split; [exact D1|]. split; [exact D2|]. split; [exact Hmc|].
  destruct (reports_for_total (load_data records)
              (extract_components (load_data records))) as [reports [Hr Hin]].
  destruct (calculate_dora_metrics_total (load_data records) t1)
    as (rate1 & mttr1 & Hrate1 & Hmttr1 & Hc1).
  destruct (calculate_dora_metrics_total (load_data records) t2)
    as (rate2 & mttr2 & Hrate2 & Hmttr2 & Hc2).
  rewrite Hmc in Hrate1, Hmttr1.
  assert (rate1 = rate2) by congruence.
  assert (mttr1 = mttr2) by congruence. subst rate2 mttr2.
  eexists reports, _, _.
  split; [exact Hr|].
  split; [exact (Hin _ _ D1 Hc1)|].
  split; [exact (Hin _ _ D2 Hc2)|].
  split; [exact Hc1|]. split; [exact Hc2|].
  cbn. rewrite Hmc. repeat split.
Qed.

Lemma case_variants_share_report_witness :
  exists reports rep1 rep2,
    main [ev 0 "[Auth] add login"; ev 9 "[auth] release login"] = Ok reports /\
    In rep1 reports /\ In rep2 reports /\
    Module_Name rep1 = "Auth" /\ Module_Name rep2 = "auth" /\
    Total_Commits rep1 = Total_Commits rep2.
Proof.
  destruct (case_variants_share_report
              [ev 0 "[Auth] add login"; ev 9 "[auth] release login"]
              (ev 0 "[Auth] add login") (ev 9 "[auth] release login")
              "Auth" "auth")
    as (_ & _ & _ & reports & rep1 & rep2 & Hm & I1 & I2 & _ & _ & N1 & N2 & T & _).
  - simpl; tauto.
  - simpl; tauto.
  - reflexivity.
  - reflexivity.
  - reflexivity.
  - discriminate.
  - exists reports, rep1, rep2. repeat split; assumption.
Defined.

(** *** Mean time to recovery, lines 48-61 *)

Lemma values_module_commits (df : DataFrame) (name : string) :
  values (module_commits df name) =
  map classify (filter (module_filter name) (values df)).
Proof.
  unfold values, module_commits, select. rewrite map_map. cbn [snd].
  induction df as [|[i r] df IH]; simpl; [reflexivity|].
  destruct (module_filter name r); simpl; now rewrite IH.
Qed.

Lemma loc_app_fresh {A : Type} (pre suf : Series A) (i : nat) (a : A) :
  (forall j, In j (index pre) -> j <> i) ->
  loc (pre ++ (i, a) :: suf) i = Ok a.
Proof.
  induction pre as [|[j b] pre IH]; simpl; intros H.
  - now rewrite Nat.eqb_refl.
  - destruct (Nat.eqb_spec j i) as [E|_].
    + exfalso. apply (H j); [now left | exact E].
    + apply IH. intros k Hk. apply H. now right.
Qed.

Lemma subsequent_recoveries_split (pre suf : Series Commit) (i : nat)
      (c : Commit) :
  (forall j, In j (index pre) -> (j < i)%nat) ->
  Forall (lt i) (index suf) ->
  subsequent_recoveries (pre ++ (i, c) :: suf) i = select is_deployment suf.
Proof.
  intros Hpre Hsuf. unfold subsequent_recoveries, select.
  rewrite filter_app. simpl. rewrite Nat.ltb_irrefl. simpl.
  rewrite (filter_ext_in _ (fun _ => false) pre).
  - replace (filter (fun _ => false) pre) with (@nil (nat * Commit))
      by (clear; induction pre; simpl; auto).
    simpl. apply filter_ext_in. intros [j d] Hin. simpl.
    rewrite Forall_forall in Hsuf.
    assert (Hj : (i < j)%nat)
      by (apply Hsuf; change j with (fst (j, d)); now apply in_map).
    apply Nat.ltb_lt in Hj. now rewrite Hj.
  - intros [j d] Hin. simpl.
    assert (Hj : (j < i)%nat)
      by (apply Hpre; change j with (fst (j, d)); now apply in_map).
    destruct (Nat.ltb_spec i j); [lia | reflexivity].
Qed.

Lemma select_first_deployment (s : Series Commit) :
  match select is_deployment s with
  | [] => first_deployment (values s) = None
  | r :: _ => first_deployment (values s) = Some (snd r)
  end.
Proof.
  unfold select, values. induction s as [|[j d] s IH]; simpl; [reflexivity|].
  destruct (is_deployment d); simpl; [reflexivity | exact IH].
Qed.

(** The loop, which works with labels, computes the samples defined by
    position, as soon as the labels increase along the frame. *)
Lemma recovery_loop_positions (suf : Series Commit) :
  forall (pre : Series Commit) (acc : list pyfloat),
    (forall j k, In j (index pre) -> In k (index suf) -> (j < k)%nat) ->
    increasing suf ->
    recovery_loop (pre ++ suf) (failure_indices suf) acc =
    Ok (acc ++ recovery_samples (values suf))%list.
Proof.
  induction suf as [|[i c] suf IH]; intros pre acc Hlt Hinc.
  - simpl. now rewrite app_nil_r.
  - unfold increasing in Hinc. simpl in Hinc.
    apply StronglySorted_inv in Hinc. destruct Hinc as [Hinc Hall].
    assert (Hnext : forall acc',
               recovery_loop (pre ++ (i, c) :: suf) (failure_indices suf) acc'
               = Ok (acc' ++ recovery_samples (values suf))%list).
    { intros acc'.
      replace (pre ++ (i, c) :: suf)%list with ((pre ++ [(i, c)]) ++ suf)%list
        by (rewrite <- app_assoc; reflexivity).
      apply IH; [|exact Hinc].
      intros j k Hj Hk. unfold index in Hj. rewrite map_app in Hj.
      apply in_app_or in Hj. destruct Hj as [Hj|[<-|[]]].
      - apply Hlt; [exact Hj | now right].
      - rewrite Forall_forall in Hall. now apply Hall. }
    assert (Hpre : forall j, In j (index pre) -> (j < i)%nat)
      by (intros j Hj; apply Hlt; [exact Hj | now left]).
    unfold failure_indices, select, index, values. simpl.
    destruct (is_failure c) eqn:Ef; simpl.
    + rewrite loc_app_fresh
        by (intros j Hj; specialize (Hpre j Hj); lia).
      simpl. rewrite (subsequent_recoveries_split pre suf i c Hpre Hall).
      pose proof (select_first_deployment suf) as Hfd.
      destruct (select is_deployment suf) as [|[j d] later]; simpl.
      * unfold values in Hfd. rewrite Hfd. apply Hnext.
      * unfold values in Hfd. rewrite Hfd. unfold iloc; simpl.
        unfold duration_hours.
        destruct (fgt (hours (total_seconds (ts_sub (c_date d) (c_date c))))
                      fzero).
        -- fold (index (filter (fun r => is_failure (snd r)) suf)).
           change (filter (fun r => is_failure (snd r)) suf)
             with (select is_failure suf).
           fold (failure_indices suf). rewrite Hnext.
           rewrite <- app_assoc. reflexivity.
        -- apply Hnext.
    + apply Hnext.
Qed.

Lemma recovery_times_positions (records : list Row) (name : string) :
  recovery_times (module_commits (load_data records) name) =
  Ok (recovery_samples (map classify (filter (module_filter name) records))).
Proof.
  rewrite <- (values_load_data records) at 2.
  rewrite <- values_module_commits.
  unfold recovery_times.
  apply (recovery_loop_positions (module_commits (load_data records) name) [] []).
  - intros j k [].
  - apply module_commits_increasing.
Qed.

(** C2: on a log written newest first, with the release before the bug it
    follows by five hours, the mean time to recovery over the events
    sorted by time is 5 hours, and the report says 0: the scan of line 54
    runs over the rows in the order of the log, which line 21 never
    sorts. *)
Lemma recovery_ignores_chronology :
  let records := [ev (5 * hour) "[X] release v2"; ev 0 "[X] bug in X"] in
  let commits := map classify (filter (module_filter "X") records) in
  exists rep,
    calculate_dora_metrics (load_data records) "X" = Ok rep /\
    feq (Mean_Time_to_Recovery rep) (Fin 0) /\
    feq (mttr_sorted commits) (Fin 5) /\
    ~ feq (Mean_Time_to_Recovery rep) (mttr_sorted commits).
Proof.
  eexists; split; [vm_compute; reflexivity|].
  split; [vm_compute; reflexivity|].
  split; [vm_compute; reflexivity|].
  vm_compute. discriminate.
Qed.

(** A deployment without a timestamp is not left out of the scan either:
    it is the first deployment after the bug and hides the later one. *)
Example recovery_keeps_undated_rows :
  let records := [ev 0 "[X] bug in X"; ev_nat "[X] release v2";
                  ev (5 * hour) "[X] release v3"] in
  let commits := map classify (filter (module_filter "X") records) in
  exists rep,
    calculate_dora_metrics (load_data records) "X" = Ok rep /\
    feq (Mean_Time_to_Recovery rep) (Fin 0) /\
    feq (mttr_sorted commits) (Fin 5).
Proof.
  eexists; split; [vm_compute; reflexivity|].
  split; vm_compute; reflexivity.
Qed.

(** X19: the loop of lines 52-59 works in the order of the log.  Each
    failure is paired with the first deployment at a later position; the
    pair yields its duration in hours, counted in whole microseconds, when
    that is positive, and nothing otherwise; the result is the mean of the
    samples, 0 when there is none.  On the log with a bug at hour 0
    followed by a release at hour 5 it is 5 hours. *)
Theorem recovery_in_log_order (records : list Row) (name : string) :
  let commits := map classify (filter (module_filter name) records) in
  recovery_times (module_commits (load_data records) name) =
  Ok (recovery_samples commits) /\
  (exists rep,
      calculate_dora_metrics (load_data records) name = Ok rep /\
      feq (Mean_Time_to_Recovery rep) (mean_or_zero (recovery_samples commits))) /\
  (exists rep,
      calculate_dora_metrics
        (load_data [ev 0 "[X] bug in X"; ev (5 * hour) "[X] release v2"]) "X"
      = Ok rep /\
      feq (Mean_Time_to_Recovery rep) (Fin 5) /\
      feq (Change_Failure_Rate rep) (Fin 100) /\
      Total_Commits rep = 2%nat /\ Total_Bugs rep = 1%nat).
Proof.
  cbn zeta. split; [apply recovery_times_positions|]. split.
  - destruct (calculate_dora_metrics_total (load_data records) name)
      as (rate & mttr & _ & Hm & Hc).
    eexists; split; [exact Hc|]. cbn [Mean_Time_to_Recovery].
    destruct (mean_time_to_recovery_total (module_commits (load_data records) name))
      as (rts & q & Hr & _ & Hm' & Hq).
    rewrite recovery_times_positions in Hr. injection Hr as <-.
    rewrite Hm in Hm'. injection Hm' as ->. exact Hq.
  - eexists; split; [vm_compute; reflexivity|].
    repeat split; vm_compute; reflexivity.
Qed.

(** *** Weekly grouping, lines 36-42 *)

Lemma bump_bound (k0 w : Z) (g : list (Z * nat)) :
  (k0 < w)%Z -> Forall (Z.lt k0) (map fst g) ->
  Forall (Z.lt k0) (map fst (bump w g)).
Proof.
  intros Hw. induction g as [|[k n] g IH]; simpl; intros H.
  - constructor; [exact Hw | constructor].
  - inversion H as [|? ? Hk Hg]; subst.
    destruct (w <? k)%Z; [|destruct (w =? k)%Z]; simpl.
    + constructor; [exact Hw | now constructor].
    + now constructor.
    + constructor; [exact Hk | now apply IH].
Qed.

Lemma bump_sorted (w : Z) (g : list (Z * nat)) :
  StronglySorted Z.lt (map fst g) -> StronglySorted Z.lt (map fst (bump w g)).
Proof.
  induction g as [|[k n] g IH]; simpl; intros H.
  - constructor; constructor.
  - pose proof (StronglySorted_inv H) as [Hs Hall].
    destruct (Z.ltb_spec w k) as [Hlt|Hge]; [|destruct (Z.eqb_spec w k) as [->|Hne]];
      simpl.
    + constructor; [exact H|]. constructor; [exact Hlt|].
      eapply Forall_impl; [|exact Hall]. intros a Ha; simpl in *; lia.
    + exact H.
    + constructor; [now apply IH|]. apply bump_bound; [lia | exact Hall].
Qed.

Lemma in_bump (w : Z) (g : list (Z * nat)) (k : Z) (n : nat) :
  StronglySorted Z.lt (map fst g) ->
  In (k, n) (bump w g) ->
  (k <> w /\ In (k, n) g) \/
  (k = w /\ ((n = 1%nat /\ ~ In w (map fst g)) \/
             exists m, n = S m /\ In (w, m) g)).
Proof.
  induction g as [|[k0 n0] g IH]; simpl; intros Hs Hin.
  - destruct Hin as [Hin|[]]. injection Hin as <- <-. right. split; auto.
  - pose proof (StronglySorted_inv Hs) as [Hs' Hall].
    rewrite Forall_forall in Hall.
    destruct (Z.ltb_spec w k0) as [Hlt|Hge];
      [|destruct (Z.eqb_spec w k0) as [->|Hne]]; simpl in Hin.
    + destruct Hin as [Hin|[Hin|Hin]].
      * injection Hin as <- <-. right. split; [reflexivity|]. left.
        split; [reflexivity|]. intros [E|Hw]; [simpl in E; lia|].
        specialize (Hall _ Hw). simpl in Hall. lia.
      * injection Hin as <- <-. left. split; [lia | now left].
      * left. split; [|now right].
        assert (Hk : In k (map fst g))
          by (change k with (fst (k, n)); now apply in_map).
        specialize (Hall _ Hk). simpl in Hall. lia.
    + destruct Hin as [Hin|Hin].
      * injection Hin as <- <-. right. split; [reflexivity|]. right.
        exists n0. split; [reflexivity | now left].
      * left. split; [|now right].
        assert (Hk : In k (map fst g))
          by (change k with (fst (k, n)); now apply in_map).
        specialize (Hall _ Hk). simpl in Hall. lia.
    + destruct Hin as [Hin|Hin].
      * injection Hin as <- <-. left. split; [congruence | now left].
      * destruct (IH Hs' Hin) as [[Hk Hg]|[-> [[-> Hno]|[m [-> Hm]]]]].
        -- left. split; [exact Hk | now right].
        -- right. split; [reflexivity|]. left. split; [reflexivity|].
           intros [E|Hw]; [simpl in E; congruence | contradiction].
        -- right. split; [reflexivity|]. right. exists m. split; auto.
Qed.

Lemma bump_key_self (w : Z) (g : list (Z * nat)) : In w (map fst (bump w g)).
Proof.
  induction g as [|[k n] g IH]; simpl; [now left|].
  destruct (w <? k)%Z; [now left|].
  destruct (Z.eqb_spec w k) as [->|Hne]; simpl; [now left | now right].
Qed.

Lemma bump_keys_incl (w k : Z) (g : list (Z * nat)) :
  In k (map fst g) -> In k (map fst (bump w g)).
Proof.
  induction g as [|[k0 n] g IH]; simpl; [contradiction|].
  intros H. destruct (w <? k0)%Z; [now right|].
  destruct (w =? k0)%Z; simpl; [exact H|].
  destruct H as [H|H]; [now left | right; now apply IH].
Qed.

Lemma bump_total_size (w : Z) (g : list (Z * nat)) :
  total_size (bump w g) = S (total_size g).
Proof.
  induction g as [|[k n] g IH]; simpl; [reflexivity|].
  destruct (w <? k)%Z; [reflexivity|].
  destruct (w =? k)%Z; simpl; [reflexivity | rewrite IH; lia].
Qed.

Lemma key_count_snoc (w : Z) (keys : list (option Z)) (k : option Z) :
  key_count w (keys ++ [k]) =
  (key_count w keys + if key_is w k then 1 else 0)%nat.
Proof.
  unfold key_count. rewrite filter_app, length_app. simpl.
  destruct (key_is w k); reflexivity.
Qed.

Lemma groups_of_step (g : list (Z * nat)) (keys : list (option Z))
      (k : option Z) :
  groups_of g keys ->
  groups_of (match k with Some w => bump w g | None => g end) (keys ++ [k]).
Proof.
  intros (Hs & Hcnt & Hin & Htot). destruct k as [w|].
  - split; [now apply bump_sorted|]. split; [|split].
    + intros k n Hk. rewrite key_count_snoc. simpl.
      destruct (in_bump w g k n Hs Hk) as [[Hne Hg]|[-> [[-> Hno]|[m [-> Hm]]]]].
      * destruct (Hcnt k n Hg) as [-> Hpos].
        destruct (Z.eqb_spec w k); [congruence | split; lia].
      * rewrite Z.eqb_refl.
        assert (key_count w keys = 0%nat).
        { destruct (key_count w keys) eqn:E; [reflexivity|].
          exfalso. apply Hno, Hin. lia. }
        split; lia.
      * rewrite Z.eqb_refl. destruct (Hcnt w m Hm) as [-> _]. split; lia.
    + intros k Hk. rewrite key_count_snoc in Hk. simpl in Hk.
      destruct (Z.eqb_spec w k) as [->|Hne]; [apply bump_key_self|].
      apply bump_keys_incl, Hin. lia.
    + rewrite bump_total_size, Htot, filter_app, length_app. simpl. lia.
  - split; [exact Hs|]. split; [|split].
    + intros k n Hk. rewrite key_count_snoc. simpl.
      destruct (Hcnt k n Hk) as [-> Hpos]. split; lia.
    + intros k Hk. rewrite key_count_snoc in Hk. simpl in Hk. apply Hin. lia.
    + rewrite Htot, filter_app, length_app. simpl. lia.
Qed.

Lemma groupby_size_groups (keys : list (option Z)) :
  groups_of (groupby_size keys) keys.
Proof.
  unfold groupby_size.
  assert (H : forall ks g done,
             groups_of g done ->
             groups_of (fold_left
                          (fun g k => match k with
                                      | Some w => bump w g
                                      | None => g
                                      end) ks g) (done ++ ks)).
  { induction ks as [|k ks IH]; intros g done Hg; simpl.
    - now rewrite app_nil_r.
    - replace (done ++ k :: ks) with ((done ++ [k]) ++ ks)
        by (rewrite <- app_assoc; reflexivity).
      apply IH. now apply groups_of_step. }
  apply (H keys [] []).
  split; [constructor|]. split; [intros k n []|].
  split; [|reflexivity].
  intros k Hk. unfold key_count in Hk. simpl in Hk. lia.
Qed.

Lemma key_count_week_keys (w : Z) (mc : Series Commit) :
  key_count w (week_keys mc) = deployments_in_week w (values mc).
Proof.
  unfold key_count, week_keys, deployments_in_week, values, select, in_week.
  induction mc as [|[i c] mc IH]; simpl; [reflexivity|].
  destruct (is_deployment c); simpl; [|exact IH].
  unfold key_is at 1. destruct (to_period_W (c_date c)) as [w'|];
    [destruct (w' =? w)%Z|]; simpl; now rewrite IH.
Qed.

Lemma present_week_keys (mc : Series Commit) :
  List.length (filter key_present (week_keys mc)) =
  List.length (filter (fun c => is_deployment c && has_timestamp c) (values mc)).
Proof.
  unfold week_keys, values, select, has_timestamp, to_period_W.
  induction mc as [|[i c] mc IH]; simpl; [reflexivity|].
  destruct (is_deployment c); simpl; [|exact IH].
  destruct (c_date c); simpl; now rewrite IH.
Qed.

Lemma in_week_has_timestamp (w : Z) (c : Commit) :
  in_week w c = true -> has_timestamp c = true.
Proof.
  unfold in_week, has_timestamp, to_period_W.
  destruct (c_date c); [reflexivity | discriminate].
Qed.

Lemma sorted_keys_NoDup (l : list Z) : StronglySorted Z.lt l -> NoDup l.
Proof.
  induction l as [|k l IH]; intros H; constructor;
    apply StronglySorted_inv in H; destruct H as [Hs Hall].
  - intros Hin. rewrite Forall_forall in Hall. specialize (Hall k Hin). lia.
  - now apply IH.
Qed.

Lemma dropna_of_int (g : list (Z * nat)) :
  dropna (map (fun e => of_int (snd e)) g) =
  map (fun e => inject_Z (Z.of_nat (snd e))) g.
Proof.
  induction g as [|e g IH]; simpl; [reflexivity | now rewrite IH].
Qed.

(** The groups of the deployments of a frame, read by week. *)
Lemma week_sizes_spec (mc : Series Commit) :
  let weeks := map fst (week_sizes mc) in
  NoDup weeks /\
  (forall w, In w weeks <-> (1 <= deployments_in_week w (values mc))%nat) /\
  (forall w n, In (w, n) (week_sizes mc) ->
               n = deployments_in_week w (values mc)) /\
  total_size (week_sizes mc) =
  List.length (filter (fun c => is_deployment c && has_timestamp c) (values mc)).
Proof.
  cbn zeta.
  destruct (groupby_size_groups (week_keys mc)) as (Hs & Hcnt & Hin & Htot).
  fold (week_sizes mc) in Hs, Hcnt, Hin, Htot.
  split; [now apply sorted_keys_NoDup|]. split; [|split].
  - intros w. rewrite <- key_count_week_keys. split; [|apply Hin].
    intros Hw. apply in_map_iff in Hw. destruct Hw as [[k n] [E Hk]].
    simpl in E; subst w.
    destruct (Hcnt k n Hk) as [<- Hpos]. exact Hpos.
  - intros w n Hw. rewrite <- key_count_week_keys. now apply Hcnt.
  - now rewrite Htot, present_week_keys.
Qed.

Lemma weekly_deployment_freq_eq (mc : Series Commit) :
  let weeks := map fst (week_sizes mc) in
  weekly_deployment_freq mc =
  if (0 <? deployment_count mc)%nat
  then match weeks with
       | [] => NaN
       | _ :: _ =>
           Fin (Qsum (map (fun w => inject_Z
                                      (Z.of_nat (deployments_in_week w (values mc))))
                          weeks)
                / inject_Z (Z.of_nat (List.length weeks)))
       end
  else Fin 0.
Proof.
  cbn zeta. unfold weekly_deployment_freq.
  destruct (0 <? deployment_count mc)%nat; [|reflexivity].
  destruct (week_sizes_spec mc) as (_ & _ & Hn & _).
  unfold series_mean. rewrite dropna_of_int.
  assert (E : map (fun e => inject_Z (Z.of_nat (snd e))) (week_sizes mc) =
              map (fun w => inject_Z
                              (Z.of_nat (deployments_in_week w (values mc))))
                  (map fst (week_sizes mc))).
  { rewrite map_map. apply map_ext_in. intros [w n] Hw. simpl.
    now rewrite (Hn w n Hw). }
  rewrite E. destruct (week_sizes mc) as [|e g]; [reflexivity|].
  cbn [map]. cbn [List.length]. rewrite !length_map. reflexivity.
Qed.

(** C5: with at least one deployment, the weekly deployment frequency is
    the mean of the per-week deployment counts over the weeks (Monday to
    Sunday) that hold at least one deployment; a week without deployment is
    no entry.  Two deployments in one week and one in the next give 1.5.
    (When no deployment has a timestamp there is no week at all, and the
    mean of nothing is NaN.) *)
Theorem weekly_frequency_over_active_weeks
        (records : list Row) (name : string) :
  let mc := module_commits (load_data records) name in
  let commits := map classify (filter (module_filter name) records) in
  let weeks := map fst (week_sizes mc) in
  NoDup weeks /\
  (forall w, In w weeks <-> (1 <= deployments_in_week w commits)%nat) /\
  (exists rep,
      calculate_dora_metrics (load_data records) name = Ok rep /\
      Weekly_Deployment_Frequency rep =
      if (0 <? deployment_count mc)%nat
      then match weeks with
           | [] => NaN
           | _ :: _ =>
               Fin (Qsum (map (fun w => inject_Z
                                          (Z.of_nat (deployments_in_week w commits)))
                              weeks)
                    / inject_Z (Z.of_nat (List.length weeks)))
           end
      else Fin 0) /\
  (exists rep,
      calculate_dora_metrics
        (load_data [ev (19723 * ns_per_day) "[X] release 1.0";
                    ev (19725 * ns_per_day + 9 * hour) "[X] release 1.1";
                    ev (19727 * ns_per_day) "[X] tidy";
                    ev (19730 * ns_per_day) "[X] release 1.2"]) "X" = Ok rep /\
      feq (Weekly_Deployment_Frequency rep) (Fin (3 # 2))).
Proof.
  cbn zeta.
  pose proof (values_module_commits (load_data records) name) as Hv.
  rewrite values_load_data in Hv. rewrite <- Hv.
  destruct (week_sizes_spec (module_commits (load_data records) name))
    as (Hnd & Hin & _ & _).
  split; [exact Hnd|]. split; [exact Hin|]. split.
  - destruct (calculate_dora_metrics_total (load_data records) name)
      as (rate & mttr & _ & _ & Hc).
    eexists; split; [exact Hc|]. cbn [Weekly_Deployment_Frequency].
    apply weekly_deployment_freq_eq.
  - eexists; split; [vm_compute; reflexivity | vm_compute; reflexivity].
Qed.

(** *** Records without a timestamp *)

Lemma count_by_message (p : option string -> bool) (records : list Row) :
  List.length (filter (fun r => p (message r)) records) =
  List.length (filter p (map message records)).
Proof.
  induction records as [|r records IH]; simpl; [reflexivity|].
  destruct (p (message r)); simpl; now rewrite IH.
Qed.

(** A term of the lead-time mean belongs to a deployment with a
    timestamp. *)
Lemma lead_times_terms (mc : Series Commit) (i : nat) (v : pyfloat) :
  In (i, v) (lead_times mc) -> is_finite v = true ->
  exists c, In (i, c) mc /\ is_deployment c = true /\ has_timestamp c = true.
Proof.
  unfold lead_times, series_sub. rewrite map_map. cbn [fst snd].
  intros Hin Hfin. apply in_map_iff in Hin. destruct Hin as [j [Heq _]].
  injection Heq as -> <-.
  destruct (get (date_column (select is_deployment mc)) i) as [x|] eqn:Ea;
    [|discriminate].
  destruct (get (date_column mc) i) as [y|]; [|discriminate].
  apply get_in in Ea. unfold date_column in Ea. apply in_map_iff in Ea.
  destruct Ea as [[i' c] [Heq Hin]]. cbn in Heq. injection Heq as -> <-.
  unfold select in Hin. apply filter_In in Hin. destruct Hin as [Hin Hdep].
  exists c. split; [exact Hin|]. split; [exact Hdep|].
  unfold has_timestamp. destruct (c_date c); [reflexivity | discriminate].
Qed.

(** C8: a record without a timestamp is counted, and it does change the
    time-based metrics.  An undated release between a bug and a dated
    release is the first deployment after the bug: the mean time to
    recovery is 0 with it and 5 hours without it.  An undated release as
    the only deployment makes the weekly frequency and the lead time NaN,
    where they are 0 without it. *)
Theorem undated_row_changes_time_metrics :
  (exists rep rep',
      calculate_dora_metrics
        (load_data [ev 0 "[X] bug in X"; ev_nat "[X] release v2";
                    ev (5 * hour) "[X] release v3"]) "X" = Ok rep /\
      calculate_dora_metrics
        (load_data [ev 0 "[X] bug in X"; ev (5 * hour) "[X] release v3"]) "X"
      = Ok rep' /\
      Total_Commits rep = 3%nat /\ Total_Commits rep' = 2%nat /\
      feq (Mean_Time_to_Recovery rep) (Fin 0) /\
      feq (Mean_Time_to_Recovery rep') (Fin 5)) /\
  (exists rep rep',
      calculate_dora_metrics
        (load_data [ev 0 "[X] add login"; ev_nat "[X] release v2"]) "X"
      = Ok rep /\
      calculate_dora_metrics (load_data [ev 0 "[X] add login"]) "X" = Ok rep' /\
      Total_Commits rep = 2%nat /\ Total_Commits rep' = 1%nat /\
      Weekly_Deployment_Frequency rep = NaN /\
      Lead_Time_for_Changes rep = NaN /\
      Weekly_Deployment_Frequency rep' = Fin 0 /\
      Lead_Time_for_Changes rep' = Fin 0).
Proof.
  split; eexists; eexists;
    (split; [vm_compute; reflexivity|]);
    (split; [vm_compute; reflexivity|]);
    repeat split; vm_compute; reflexivity.
Qed.

(** X20: the five counts look at messages only, so records without a
    timestamp are counted; the size of a week group counts deployments
    with a timestamp, every recovery sample is the duration between two
    rows that both have one, and every term of the lead-time mean belongs
    to a row that has one. *)
Theorem undated_rows_counted_not_timed (records : list Row) (name : string) :
  let mc := module_commits (load_data records) name in
  let commits := map classify (filter (module_filter name) records) in
  let tagged := str_contains [bracketed name] in
  let labelled (vocabulary : list string) :=
    List.length
      (filter (fun m => tagged m && str_contains vocabulary m)
              (map message records)) in
  exists rep rts,
    calculate_dora_metrics (load_data records) name = Ok rep /\
    Total_Commits rep = List.length (filter tagged (map message records)) /\
    Total_Bugs rep = labelled bug_keywords /\
    Total_PRs rep = labelled pr_keywords /\
    deployment_count mc = labelled deployment_keywords /\
    failure_count mc = labelled failure_keywords /\
    (forall w n,
        In (w, n) (week_sizes mc) ->
        n = List.length
              (filter (fun c => is_deployment c && has_timestamp c && in_week w c)
                      commits)) /\
    total_size (week_sizes mc) =
    List.length (filter (fun c => is_deployment c && has_timestamp c) commits) /\
    recovery_times mc = Ok rts /\
    (forall t,
        In t rts ->
        exists f d,
          In f commits /\ In d commits /\
          has_timestamp f = true /\ has_timestamp d = true /\
          t = duration_hours d f) /\
    (forall i v,
        In (i, v) (lead_times mc) -> is_finite v = true ->
        exists c, In (i, c) mc /\ has_timestamp c = true).
Proof.
  cbn zeta.
  pose proof (values_module_commits (load_data records) name) as Hv.
  rewrite values_load_data in Hv. rewrite <- Hv.
  destruct (calculate_dora_metrics_total (load_data records) name)
    as (rate & mttr & _ & _ & Hc).
  destruct (recovery_times_total (module_commits (load_data records) name))
    as [rts [Hr Hs]].
  destruct (week_sizes_spec (module_commits (load_data records) name))
    as (_ & _ & Hn & Htot).
  eexists; exists rts. split; [exact Hc|].
  cbn [Total_Commits Total_Bugs Total_PRs].
  unfold deployment_count, failure_count.
  rewrite length_module_commits, !count_true_module_commits, values_load_data.
  split; [apply (count_by_message (str_contains [bracketed name]))|].
  split; [apply (count_by_message
                   (fun m => str_contains [bracketed name] m
                             && str_contains bug_keywords m))|].
  split; [apply (count_by_message
                   (fun m => str_contains [bracketed name] m
                             && str_contains pr_keywords m))|].
  split; [apply (count_by_message
                   (fun m => str_contains [bracketed name] m
                             && str_contains deployment_keywords m))|].
  split; [apply (count_by_message
                   (fun m => str_contains [bracketed name] m
                             && str_contains failure_keywords m))|].
  split.
  { intros w n Hw. rewrite (Hn w n Hw). unfold deployments_in_week.
    f_equal. apply filter_ext. intros c.
    destruct (is_deployment c); simpl; [|reflexivity].
    destruct (in_week w c) eqn:E; [|now rewrite andb_false_r].
    now rewrite (in_week_has_timestamp w c E). }
  split; [exact Htot|]. split; [exact Hr|]. split.
  - intros t Ht. rewrite Forall_forall in Hs.
    destruct (Hs t Ht) as (i & f & j & d & tf & td & Hf & Hd & _ & _ & Ef & Ed & Et & _).
    exists f, d. unfold values, has_timestamp. rewrite Ef, Ed.
    repeat split; try exact Et.
    + change f with (snd (i, f)). now apply in_map.
    + change d with (snd (j, d)). now apply in_map.
  - intros i v Hin Hfin.
    destruct (lead_times_terms _ i v Hin Hfin) as [c [Hc' [_ Ht]]].
    now exists c.
Qed.

End Dora.

(** ** Further properties of the analyzer *)

Module DoraMore.

Import Py Pandas PyStr Analyze Spec PandasFacts PyStrFacts AnalyzeFacts Dora.
Local Open Scope string_scope.
Local Open Scope bool_scope.
Local Open Scope list_scope.

(** *** The matchers *)

Lemma string_app_assoc (a b c : string) :
  ((a ++ b) ++ c = a ++ (b ++ c))%string.
Proof.
  induction a as [|x a IH]; simpl; [reflexivity | now rewrite IH].
Qed.

Lemma re_search_ci_subject_fold (alts : list string) (s1 s2 : string) :
  lower s1 = lower s2 -> re_search_ci alts s1 = re_search_ci alts s2.
Proof.
  intros H. apply eq_true_iff_eq. rewrite !re_search_ci_spec.
  unfold occurs_ci. now rewrite H.
Qed.

Lemma re_search_ci_context (alts : list string) (pre m suf : string) :
  re_search_ci alts m = true ->
  re_search_ci alts (pre ++ m ++ suf)%string = true.
Proof.
  rewrite !re_search_ci_spec. intros [t [Hin [p [s H]]]].
  exists t; split; [exact Hin|].
  exists (lower pre ++ p)%string, (s ++ lower suf)%string.
  rewrite !lower_app, H, !string_app_assoc. reflexivity.
Qed.

Lemma span_clean_body (s body rest : string) :
  span_not_rbracket s = (body, rest) -> mentions "]" body = false.
Proof.
  revert body rest; induction s as [|c s IH]; intros body rest; simpl.
  - intros H; injection H as <- <-; reflexivity.
  - destruct (Ascii.eqb c "]") eqn:E.
    + intros H; injection H as <- <-; reflexivity.
    + destruct (span_not_rbracket s) as [b r].
      intros H; injection H as <- <-. simpl. rewrite E. now apply (IH b r).
Qed.

Lemma span_clean_prefix (t suf : string) :
  mentions "]" t = false ->
  span_not_rbracket (t ++ String "]" suf)%string = (t, String "]" suf).
Proof.
  induction t as [|c t IH]; simpl; intros H; [reflexivity|].
  apply orb_false_iff in H. destruct H as [Hc Ht].
  rewrite Hc, (IH Ht). reflexivity.
Qed.

(** What [extract_components] reads from a message is a bracketed text of
    the message, not empty and without a closing bracket inside. *)
Lemma re_extract_first_sound (m t : string) :
  re_extract_first m = Some t ->
  t <> "" /\ mentions "]" t = false /\
  exists pre suf, m = (pre ++ bracketed t ++ suf)%string.
Proof.
  induction m as [|c m IH]; simpl; [discriminate|].
  assert (Hrec : re_extract_first m = Some t ->
                 t <> "" /\ mentions "]" t = false /\
                 exists pre suf, String c m = (pre ++ bracketed t ++ suf)%string).
  { intros H. destruct (IH H) as (Hne & Hcl & pre & suf & ->).
    split; [exact Hne|]. split; [exact Hcl|]. now exists (String c pre), suf. }
  destruct (Ascii.eqb c "[") eqn:Ec; [|exact Hrec].
  destruct (span_not_rbracket m) as [body rest] eqn:Es.
  destruct body as [|b body]; [exact Hrec|].
  destruct rest as [|r rest]; [exact Hrec|].
  intros H; injection H as <-.
  apply Ascii.eqb_eq in Ec; subst c.
  split; [discriminate|]. split; [exact (span_clean_body _ _ _ Es)|].
  destruct (span_not_rbracket_rest _ _ _ Es) as [Hr | [rest' Hr]];
    [discriminate|]. injection Hr as -> ->.
  apply span_not_rbracket_app in Es. subst m.
  exists "", rest'. unfold bracketed. simpl. f_equal. f_equal.
  now rewrite string_app_assoc.
Qed.

Lemma re_extract_first_complete (pre t suf : string) :
  t <> "" -> mentions "]" t = false ->
  re_extract_first (pre ++ bracketed t ++ suf)%string <> None.
Proof.
  intros Hne Hcl. induction pre as [|c pre IH]; simpl.
  - rewrite string_app_assoc. simpl. rewrite (span_clean_prefix t suf Hcl).
    destruct t as [|b t]; [contradiction | discriminate].
  - destruct (Ascii.eqb c "["); [|exact IH].
    destruct (span_not_rbracket _) as [[|b body] [|r rest]];
      try exact IH. discriminate.
Qed.

Lemma re_extract_first_no_bracket (m : string) :
  mentions "[" m = false -> re_extract_first m = None.
Proof.
  induction m as [|c m IH]; simpl; [reflexivity|].
  intros H. apply orb_false_iff in H. destruct H as [Hc Hm].
  rewrite Hc. now apply IH.
Qed.

(** X13: a message yields a component exactly when it holds, somewhere, an
    opening bracket, then a non-empty text without a closing bracket, then
    a closing bracket; the component found is such a text. *)
Theorem extract_first_iff (m : string) :
  (forall t, re_extract_first m = Some t ->
             t <> "" /\ mentions "]" t = false /\
             exists pre suf, m = (pre ++ bracketed t ++ suf)%string) /\
  (re_extract_first m = None <->
   ~ exists pre t suf,
       t <> "" /\ mentions "]" t = false /\
       m = (pre ++ bracketed t ++ suf)%string).
Proof.
  split; [intros t; apply re_extract_first_sound|]. split.
  - intros Hnone (pre & t & suf & Hne & Hcl & ->).
    exact (re_extract_first_complete pre t suf Hne Hcl Hnone).
  - intros Hno. destruct (re_extract_first m) as [t|] eqn:E; [|reflexivity].
    exfalso. apply Hno.
    destruct (re_extract_first_sound m t E) as (Hne & Hcl & pre & suf & Hm).
    now exists pre, t, suf.
Qed.

(** X11: the labels of a record and its selection for a component depend
    on the message only up to letter case. *)
Theorem labels_ignore_case (d1 d2 : Timestamp) (m1 m2 name : string)
        (Hfold : lower m1 = lower m2) :
  let c1 := classify (mkRow d1 (Some m1)) in
  let c2 := classify (mkRow d2 (Some m2)) in
  is_deployment c1 = is_deployment c2 /\
  is_failure c1 = is_failure c2 /\
  is_bug c1 = is_bug c2 /\
  is_pr c1 = is_pr c2 /\
  module_filter name (mkRow d1 (Some m1)) =
  module_filter name (mkRow d2 (Some m2)).
Proof.
  cbn zeta. unfold classify, module_filter; cbn.
  repeat split; now apply re_search_ci_subject_fold.
Qed.

Lemma labels_ignore_case_witness :
  is_failure (classify (ev 0 "[Core] HOTFIX for login")) =
  is_failure (classify (ev 5 "[core] hotfix FOR Login")) /\
  module_filter "CORE" (ev 0 "[Core] HOTFIX for login") =
  module_filter "CORE" (ev 5 "[core] hotfix FOR Login").
Proof.
  destruct (labels_ignore_case (Some 0%Z) (Some 5%Z)
              "[Core] HOTFIX for login" "[core] hotfix FOR Login" "CORE")
    as (_ & Hf & _ & _ & Hm).
  - reflexivity.
  - split; [exact Hf | exact Hm].
Defined.

(** X12: text added before or after a message removes no label and no
    component: a label once set stays set, and a record selected for a
    component stays selected. *)
Theorem labels_survive_context (d : Timestamp) (pre m suf name : string) :
  let c := classify (mkRow d (Some m)) in
  let c' := classify (mkRow d (Some (pre ++ m ++ suf)%string)) in
  (is_deployment c = true -> is_deployment c' = true) /\
  (is_failure c = true -> is_failure c' = true) /\
  (is_bug c = true -> is_bug c' = true) /\
  (is_pr c = true -> is_pr c' = true) /\
  (module_filter name (mkRow d (Some m)) = true ->
   module_filter name (mkRow d (Some (pre ++ m ++ suf)%string)) = true).
Proof.
  cbn zeta. unfold classify, module_filter; cbn.
  repeat split; apply re_search_ci_context.
Qed.

(** *** Component discovery and [main] *)

Lemma unique_NoDup (l : list string) : NoDup (unique l).
Proof.
  induction l as [|x l IH]; simpl; constructor.
  - intros H. apply filter_In in H. destruct H as [_ H].
    now rewrite String.eqb_refl in H.
  - now apply NoDup_filter.
Qed.

Lemma in_values_load_data (records : list Row) (r : Row) :
  (exists i, In (i, r) (load_data records)) <-> In r records.
Proof.
  split.
  - intros [i Hi]. apply in_load_data in Hi. eapply nth_error_In; eauto.
  - intros H. apply In_nth_error in H. destruct H as [i Hi].
    exists i. now apply in_load_data.
Qed.

(** X1: the components discovered in a log are pairwise distinct; they are
    exactly the first tags of its messages; none is empty and none holds a
    closing bracket. *)
Theorem components_are_distinct_first_tags (records : list Row) :
  let components := extract_components (load_data records) in
  NoDup components /\
  (forall c, In c components <->
             exists r, In r records /\ component_of r = Some c) /\
  (forall c, In c components -> c <> "" /\ mentions "]" c = false).
Proof.
  cbn zeta. split; [apply unique_NoDup|].
  assert (H : forall c, In c (extract_components (load_data records)) <->
                        exists r, In r records /\ component_of r = Some c).
  { intros c. rewrite in_extract_components. split.
    - intros (i & r & Hin & Hc). exists r. split; [|exact Hc].
      apply in_values_load_data. now exists i.
    - intros (r & Hin & Hc). apply in_values_load_data in Hin.
      destruct Hin as [i Hi]. now exists i, r. }
  split; [exact H|].
  intros c Hc. apply H in Hc. destruct Hc as (r & _ & Hc).
  unfold component_of, str_extract in Hc.
  destruct (message r) as [m|]; [|discriminate].
  destruct (re_extract_first_sound m c Hc) as (Hne & Hcl & _). now split.
Qed.

Lemma untagged_no_component (r : Row) :
  untagged r = true -> component_of r = None.
Proof.
  unfold untagged, component_of, str_extract.
  destruct (message r) as [m|]; [|reflexivity].
  intros H. apply negb_true_iff in H. now apply re_extract_first_no_bracket.
Qed.

(** X2: on a log in which no message holds an opening bracket, [main]
    emits no report: whenever it returns, the list of reports is empty. *)
Theorem no_bracket_no_report (records : list Row)
        (Hnone : forallb untagged records = true) :
  match main records with
  | Ok reports => reports = []
  | Raise _ => True
  end.
Proof.
  assert (E : extract_components (load_data records) = []).
  { destruct (extract_components (load_data records)) as [|c l] eqn:Ec;
      [reflexivity|]. exfalso.
    assert (Hc : In c (extract_components (load_data records)))
      by (rewrite Ec; now left).
    apply in_extract_components in Hc. destruct Hc as (i & r & Hin & Hc).
    assert (Hr : In r records) by (apply in_values_load_data; now exists i).
    rewrite forallb_forall in Hnone.
    rewrite (untagged_no_component r (Hnone r Hr)) in Hc. discriminate. }
  unfold main. now rewrite E.
Qed.

Lemma no_bracket_no_report_witness :
  match main [ev 0 "fix login"; ev_nat "release 2.0"; mkRow (Some 7%Z) None]
  with
  | Ok reports => reports = []
  | Raise _ => True
  end.
Proof.
  apply (no_bracket_no_report
           [ev 0 "fix login"; ev_nat "release 2.0"; mkRow (Some 7%Z) None]).
  reflexivity.
Defined.

Lemma reports_for_names (df : DataFrame) (components : list string) :
  exists reports,
    reports_for df components = Ok reports /\
    Forall2 (fun c rep => calculate_dora_metrics df c = Ok rep)
            components reports.
Proof.
  induction components as [|c0 components [reports [Hr Hall]]]; simpl.
  - exists []; split; [reflexivity | constructor].
  - destruct (calculate_dora_metrics_total df c0) as (rate & mttr & _ & _ & Hc).
    rewrite Hc, Hr; simpl. eexists; split; [reflexivity|].
    constructor; [exact Hc | exact Hall].
Qed.

Lemma report_fields (df : DataFrame) (name : string) (rep : MetricReport) :
  calculate_dora_metrics df name = Ok rep ->
  Module_Name rep = name /\
  Total_Commits rep = List.length (module_commits df name) /\
  Total_Bugs rep = count_true is_bug (module_commits df name) /\
  Total_PRs rep = count_true is_pr (module_commits df name) /\
  Weekly_Deployment_Frequency rep =
  weekly_deployment_freq (module_commits df name) /\
  change_failure_rate (module_commits df name) = Ok (Change_Failure_Rate rep) /\
  mean_time_to_recovery (module_commits df name) = Ok (Mean_Time_to_Recovery rep) /\
  Lead_Time_for_Changes rep = lead_time_for_changes (module_commits df name).
Proof.
  destruct (calculate_dora_metrics_total df name) as (rate & mttr & Hr & Hm & Hc).
  rewrite Hc. intros H; injection H as <-. cbn. repeat split; assumption.
Qed.

Lemma report_names (df : DataFrame) (cs : list string)
      (reps : list MetricReport) :
  Forall2 (fun c rep => calculate_dora_metrics df c = Ok rep) cs reps ->
  map Module_Name reps = cs.
Proof.
  induction 1 as [|c rep cs reps Hc _ IH]; simpl; [reflexivity|].
  destruct (report_fields _ _ _ Hc) as [-> _]. now rewrite IH.
Qed.

Lemma report_totals (records : list Row) (cs : list string)
      (reps : list MetricReport) :
  Forall2 (fun c rep => calculate_dora_metrics (load_data records) c = Ok rep)
          cs reps ->
  (forall c, In c cs -> In c (extract_components (load_data records))) ->
  Forall (fun rep => (1 <= Total_Commits rep <= List.length records)%nat) reps.
Proof.
  induction 1 as [|c rep cs reps Hc _ IH]; intros Hin; constructor.
  - destruct (report_fields _ _ _ Hc) as (_ & -> & _).
    rewrite length_module_commits, values_load_data. split.
    + assert (Hc' : In c (extract_components (load_data records)))
        by (apply Hin; now left).
      apply in_extract_components in Hc'. destruct Hc' as (i & r & Hr & Hcr).
      assert (Hrec : In r records) by (apply in_values_load_data; now exists i).
      assert (Hf : In r (filter (module_filter c) records))
        by (apply filter_In; split; [exact Hrec | now apply first_tag_selected]).
      destruct (filter (module_filter c) records); [contradiction | simpl; lia].
    + apply filter_length_le.
  - apply IH. intros c' Hc'. apply Hin. now right.
Qed.

(** X3: whenever [main] returns, it has emitted one report per
    discovered component, in the order of discovery and under distinct
    names, and every report counts at least one commit and at most the
    whole log. *)
Theorem main_one_report_per_component (records : list Row) :
  match main records with
  | Ok reports =>
      map Module_Name reports = extract_components (load_data records) /\
      NoDup (map Module_Name reports) /\
      Forall (fun rep => (1 <= Total_Commits rep <= List.length records)%nat)
             reports
  | Raise _ => True
  end.
Proof.
  unfold main.
  destruct (reports_for_names (load_data records)
              (extract_components (load_data records))) as [reports [Hr Hall]].
  rewrite Hr.
  pose proof (report_names _ _ _ Hall) as Hnames.
  split; [exact Hnames|]. split; [rewrite Hnames; apply unique_NoDup|].
  apply (report_totals records _ _ Hall). auto.
Qed.

(** X4: in every report the bug count and the pull-request count, and the
    deployment and failure counts behind the rate, are at most the total
    number of commits of the component. *)
Theorem label_counts_bounded (records : list Row) (name : string) :
  let mc := module_commits (load_data records) name in
  exists rep,
    calculate_dora_metrics (load_data records) name = Ok rep /\
    (Total_Bugs rep <= Total_Commits rep)%nat /\
    (Total_PRs rep <= Total_Commits rep)%nat /\
    (deployment_count mc <= Total_Commits rep)%nat /\
    (failure_count mc <= Total_Commits rep)%nat /\
    (Total_Commits rep <= List.length records)%nat.
Proof.
  cbn zeta.
  destruct (calculate_dora_metrics_total (load_data records) name)
    as (rate & mttr & _ & _ & Hc).
  eexists; split; [exact Hc|]. cbn.
  unfold deployment_count, failure_count, count_true, select.
  repeat split; try apply filter_length_le.
  rewrite length_module_commits, values_load_data. apply filter_length_le.
Qed.

(** *** Ranges of the metrics *)

Lemma Qsum_sizes (g : list (Z * nat)) :
  Qsum (map (fun e => inject_Z (Z.of_nat (snd e))) g) ==
  inject_Z (Z.of_nat (total_size g)).
Proof.
  induction g as [|e g IH]; unfold Qsum; simpl; [reflexivity|].
  fold (Qsum (map (fun e => inject_Z (Z.of_nat (snd e))) g)).
  rewrite IH, Nat2Z.inj_add, inject_Z_plus. reflexivity.
Qed.

Lemma sizes_at_least_length (g : list (Z * nat)) :
  (forall e, In e g -> (1 <= snd e)%nat) ->
  (List.length g <= total_size g)%nat.
Proof.
  induction g as [|e g IH]; simpl; intros H; [lia|].
  assert (1 <= snd e)%nat by (apply H; now left).
  assert (List.length g <= total_size g)%nat
    by (apply IH; intros e' He'; apply H; now right).
  lia.
Qed.

Lemma series_mean_values (l : list pyfloat) :
  dropna l <> [] ->
  series_mean l =
  Fin (Qsum (dropna l) / inject_Z (Z.of_nat (List.length (dropna l)))).
Proof.
  unfold series_mean. destruct (dropna l); [congruence | reflexivity].
Qed.

Lemma mean_of_sizes_range (g : list (Z * nat)) (q : Q) :
  (forall e, In e g -> (1 <= snd e)%nat) ->
  series_mean (map (fun e => of_int (snd e)) g) = Fin q ->
  1 <= q /\ q <= inject_Z (Z.of_nat (total_size g)).
Proof.
  intros Hpos Hq.
  pose proof (sizes_at_least_length g Hpos) as Hlen.
  assert (Hne : g <> []) by (intros ->; discriminate Hq).
  rewrite series_mean_values in Hq
    by (rewrite dropna_of_int; destruct g; [congruence | discriminate]).
  injection Hq as <-. rewrite dropna_of_int, length_map.
  assert (Hlen0 : (0 < List.length g)%nat)
    by (destruct g; [congruence | simpl; lia]).
  assert (Hq : 0 < inject_Z (Z.of_nat (List.length g)))
    by (change 0 with (inject_Z 0); rewrite <- Zlt_Qlt; lia).
  split.
  - apply Qle_shift_div_l; [exact Hq|]. rewrite Qsum_sizes, Qmult_1_l.
    rewrite <- Zle_Qle. lia.
  - apply Qle_shift_div_r; [exact Hq|]. rewrite Qsum_sizes, <- inject_Z_mult.
    rewrite <- Zle_Qle. nia.
Qed.

(** X5: when the weekly deployment frequency of a component with
    deployments is a number, it lies between 1 and the number of
    deployments: a week enters the mean only with at least one
    deployment. *)
Theorem weekly_frequency_range (records : list Row) (name : string) :
  let mc := module_commits (load_data records) name in
  exists rep,
    calculate_dora_metrics (load_data records) name = Ok rep /\
    forall q,
      Weekly_Deployment_Frequency rep = Fin q ->
      (deployment_count mc = 0%nat -> q == 0) /\
      ((0 < deployment_count mc)%nat ->
       1 <= q /\ q <= inject_Z (Z.of_nat (deployment_count mc))).
Proof.
  cbn zeta.
  destruct (calculate_dora_metrics_total (load_data records) name)
    as (rate & mttr & _ & _ & Hc).
  eexists; split; [exact Hc|]. cbn [Weekly_Deployment_Frequency].
  set (mc := module_commits (load_data records) name).
  intros q Hq. unfold weekly_deployment_freq in Hq. split.
  - intros Hz. rewrite Hz in Hq. simpl in Hq. injection Hq as <-. reflexivity.
  - intros Hpos. apply Nat.ltb_lt in Hpos. rewrite Hpos in Hq.
    destruct (week_sizes_spec mc) as (_ & Hin & Hn & Htot).
    assert (Hone : forall e, In e (week_sizes mc) -> (1 <= snd e)%nat).
    { intros [w n] He. simpl. rewrite (Hn w n He). apply Hin.
      change w with (fst (w, n)). now apply in_map. }
    destruct (mean_of_sizes_range _ q Hone Hq) as [Hlo Hhi].
    split; [exact Hlo|]. eapply Qle_trans; [exact Hhi|].
    rewrite <- Zle_Qle. apply inj_le. rewrite Htot.
    unfold deployment_count, count_true, select, values.
    rewrite <- (length_map snd (filter _ mc)).
    clear. induction mc as [|[i c] mc IH]; simpl; [lia|].
    destruct (is_deployment c); simpl; [|exact IH].
    destruct (has_timestamp c); simpl; lia.
Qed.

Lemma recovery_samples_positive (l : list Commit) :
  Forall (fun t => exists x, t = Fin x /\ 0 < x) (recovery_samples l).
Proof.
  induction l as [|c l IH]; simpl; [constructor|].
  destruct (is_failure c); [|exact IH].
  destruct (first_deployment l) as [d|]; [|exact IH].
  destruct (fgt (duration_hours d c) fzero) eqn:E; [|exact IH].
  constructor; [now apply fgt_zero_inv | exact IH].
Qed.

Lemma Qsum_positive (l : list pyfloat) :
  Forall (fun t => exists x, t = Fin x /\ 0 < x) l ->
  0 <= Qsum (dropna l) /\ (l <> [] -> 0 < Qsum (dropna l)).
Proof.
  induction 1 as [|t l (x & -> & Hx) _ [IH _]]; unfold Qsum; simpl.
  - split; [apply Qle_refl | congruence].
  - fold (Qsum (dropna l)).
    assert (0 < x + Qsum (dropna l)).
    { apply Qlt_le_trans with (x + 0); [now rewrite Qplus_0_r|].
      apply Qplus_le_r, IH. }
    split; [now apply Qlt_le_weak | auto].
Qed.

Lemma seconds_sign (n : Z) :
  Qle_bool (inject_Z n / inject_Z 1000000 / inject_Z 3600) 0 = (n <=? 0)%Z.
Proof.
  apply eq_true_iff_eq. rewrite Qle_bool_iff, Z.leb_le.
  unfold Qle, Qdiv, Qmult, Qinv, inject_Z. cbn [Qnum Qden]. simpl. lia.
Qed.

(** The duration of line 57 passes the test of line 58 exactly when both
    rows are dated and the deployment is at least one microsecond later. *)
Lemma duration_positive_iff (d c : Commit) :
  fgt (duration_hours d c) fzero = true <->
  exists td tc,
    c_date d = Some td /\ c_date c = Some tc /\ (1000 <= td - tc)%Z.
Proof.
  unfold duration_hours.
  destruct (c_date d) as [td|], (c_date c) as [tc|]; simpl;
    try (split; [discriminate | intros (x & y & H1 & H2 & _); discriminate]).
  rewrite seconds_sign, negb_true_iff, Z.leb_gt.
  pose proof (Z.div_mod (td - tc) 1000 ltac:(lia)) as Hdm.
  pose proof (Z.mod_pos_bound (td - tc) 1000 ltac:(lia)) as Hmod.
  split.
  - intros H. exists td, tc. repeat split. lia.
  - intros (x & y & H1 & H2 & H). injection H1 as <-. injection H2 as <-. lia.
Qed.

Lemma first_deployment_in (l : list Commit) (d : Commit) :
  first_deployment l = Some d -> In d l /\ is_deployment d = true.
Proof.
  induction l as [|c l IH]; simpl; [discriminate|].
  destruct (is_deployment c) eqn:E.
  - intros H; injection H as <-. split; [now left | exact E].
  - intros H. destruct (IH H). split; [now right | assumption].
Qed.

(** Some failure of the list yields a sample. *)
Lemma recovery_samples_nonempty_iff (l : list Commit) :
  recovery_samples l <> [] <->
  exists pre f rest d tf td,
    l = pre ++ f :: rest /\ is_failure f = true /\
    first_deployment rest = Some d /\
    c_date f = Some tf /\ c_date d = Some td /\ (1000 <= td - tf)%Z.
Proof.
  split.
  - induction l as [|c l IH]; simpl; [congruence|].
    assert (Hrec : recovery_samples l <> [] ->
                   exists pre f rest d tf td,
                     c :: l = pre ++ f :: rest /\ is_failure f = true /\
                     first_deployment rest = Some d /\
                     c_date f = Some tf /\ c_date d = Some td /\
                     (1000 <= td - tf)%Z).
    { intros H. destruct (IH H) as (pre & f & rest & d & tf & td & -> & H').
      now exists (c :: pre), f, rest, d, tf, td. }
    destruct (is_failure c) eqn:Ef; [|exact Hrec].
    destruct (first_deployment l) as [d|] eqn:Ed; [|exact Hrec].
    destruct (fgt (duration_hours d c) fzero) eqn:Eg; [|exact Hrec].
    intros _. apply duration_positive_iff in Eg.
    destruct Eg as (td & tc & Hd & Hc & Hgap).
    now exists [], c, l, d, tc, td.
  - intros (pre & f & rest & d & tf & td & -> & Hf & Hd & Htf & Htd & Hgap).
    induction pre as [|c pre IH]; simpl.
    + rewrite Hf, Hd.
      assert (Eg : fgt (duration_hours d f) fzero = true)
        by (apply duration_positive_iff; now exists td, tf).
      rewrite Eg. discriminate.
    + destruct (is_failure c); [|exact IH].
      destruct (first_deployment (pre ++ f :: rest)); [|exact IH].
      destruct (fgt _ fzero); [discriminate | exact IH].
Qed.

(** X6: the mean time to recovery is a number and never negative; it is
    positive exactly when some failure of the component has, as the first
    deployment after it in the log, a dated deployment at least one
    microsecond later than the failure. *)
Theorem recovery_mean_sign (records : list Row) (name : string) :
  let commits := map classify (filter (module_filter name) records) in
  exists rep q,
    calculate_dora_metrics (load_data records) name = Ok rep /\
    Mean_Time_to_Recovery rep = Fin q /\
    0 <= q /\
    (0 < q <-> recovery_samples commits <> []) /\
    (0 < q <->
     exists pre f rest d tf td,
       commits = pre ++ f :: rest /\ is_failure f = true /\
       first_deployment rest = Some d /\
       c_date f = Some tf /\ c_date d = Some td /\ (1000 <= td - tf)%Z).
Proof.
  cbn zeta.
  destruct (calculate_dora_metrics_total (load_data records) name)
    as (rate & mttr & _ & Hm & Hc).
  destruct (mean_time_to_recovery_total (module_commits (load_data records) name))
    as (rts & q & Hr & _ & Hm' & Hq).
  rewrite recovery_times_positions in Hr. injection Hr as <-.
  rewrite Hm in Hm'. injection Hm' as ->.
  eexists; exists q. split; [exact Hc|]. split; [reflexivity|].
  rewrite <- recovery_samples_nonempty_iff.
  set (samples := recovery_samples
                    (map classify (filter (module_filter name) records))) in *.
  destruct (Qsum_positive samples (recovery_samples_positive _)) as [H0 Hpos].
  unfold mean_or_zero, feq in Hq. destruct samples as [|t l] eqn:Es.
  - simpl in Hq. rewrite Hq. split; [apply Qle_refl|].
    split; (split; [intros H; exfalso; revert H; apply Qlt_irrefl | congruence]).
  - assert (Hlen : 0 < inject_Z (Z.of_nat (List.length (t :: l))))
      by (change 0 with (inject_Z 0); rewrite <- Zlt_Qlt; simpl; lia).
    assert (Hq0 : 0 < q).
    { rewrite Hq. apply Qlt_shift_div_l; [exact Hlen|].
      rewrite Qmult_0_l. apply Hpos. discriminate. }
    split; [now apply Qlt_le_weak|].
    split; (split; [discriminate | auto]).
Qed.

Lemma recovery_samples_without_failure (l : list Commit) :
  (forall c, In c l -> is_failure c = false) -> recovery_samples l = [].
Proof.
  induction l as [|c l IH]; simpl; intros H; [reflexivity|].
  rewrite (H c (or_introl eq_refl)). apply IH. intros c' Hc'. apply H. now right.
Qed.

Lemma recovery_samples_without_deployment (l : list Commit) :
  (forall c, In c l -> is_deployment c = false) -> recovery_samples l = [].
Proof.
  induction l as [|c l IH]; simpl; intros H; [reflexivity|].
  assert (Hl : forall c', In c' l -> is_deployment c' = false)
    by (intros c' Hc'; apply H; now right).
  rewrite (IH Hl). destruct (is_failure c); [|reflexivity].
  destruct (first_deployment l) as [d|] eqn:E; [|reflexivity].
  apply first_deployment_in in E. destruct E as [Hin Hd].
  rewrite (Hl d Hin) in Hd. discriminate.
Qed.

Lemma count_true_zero (col : Commit -> bool) (mc : Series Commit) :
  count_true col mc = 0%nat -> forall c, In c (values mc) -> col c = false.
Proof.
  unfold count_true, select, values. intros H c Hc.
  apply length_zero_iff_nil in H.
  apply in_map_iff in Hc. destruct Hc as [[i c'] [<- Hin]]. simpl.
  destruct (col c') eqn:E; [|reflexivity].
  assert (Hf : In (i, c') (filter (fun r => col (snd r)) mc))
    by (apply filter_In; now split).
  rewrite H in Hf. contradiction.
Qed.

Lemma recovery_zero_of_samples (records : list Row) (name : string) :
  recovery_samples (map classify (filter (module_filter name) records)) = [] ->
  exists rep,
    calculate_dora_metrics (load_data records) name = Ok rep /\
    Mean_Time_to_Recovery rep = Fin 0.
Proof.
  intros Hs.
  destruct (calculate_dora_metrics_total (load_data records) name)
    as (rate & mttr & _ & Hm & Hc).
  eexists; split; [exact Hc|]. cbn [Mean_Time_to_Recovery].
  unfold mean_time_to_recovery in Hm.
  rewrite recovery_times_positions, Hs in Hm. simpl in Hm.
  now injection Hm as <-.
Qed.

(** X7: a component without any failure, or without any deployment, has
    mean time to recovery 0. *)
Theorem recovery_zero_without_pairs (records : list Row) (name : string)
        (Hnone : failure_count (module_commits (load_data records) name) = 0%nat
                 \/ deployment_count (module_commits (load_data records) name)
                    = 0%nat) :
  exists rep,
    calculate_dora_metrics (load_data records) name = Ok rep /\
    Mean_Time_to_Recovery rep = Fin 0.
Proof.
  apply recovery_zero_of_samples.
  pose proof (values_module_commits (load_data records) name) as Hv.
  rewrite values_load_data in Hv. rewrite <- Hv.
  destruct Hnone as [H|H].
  - apply recovery_samples_without_failure, (count_true_zero _ _ H).
  - apply recovery_samples_without_deployment, (count_true_zero _ _ H).
Qed.

Lemma recovery_zero_without_pairs_witness :
  exists rep,
    calculate_dora_metrics
      (load_data [ev 0 "[X] hotfix"; ev (2 * hour) "[X] tidy"]) "X" = Ok rep /\
    Mean_Time_to_Recovery rep = Fin 0.
Proof.
  apply (recovery_zero_without_pairs
           [ev 0 "[X] hotfix"; ev (2 * hour) "[X] tidy"] "X").
  right. reflexivity.
Defined.

(** *** Logs written newest first *)

Lemma hours_nonpositive (ns : Z) :
  (ns <= 0)%Z -> fgt (hours (total_seconds (Some ns))) fzero = false.
Proof.
  intros H. simpl. apply negb_false_iff, Qle_bool_iff.
  unfold Qdiv. rewrite <- Qmult_assoc.
  setoid_replace 0 with (0 * (/ inject_Z 1000000 * / inject_Z 3600)) by ring.
  apply Qmult_le_compat_r.
  - change 0 with (inject_Z 0). rewrite <- Zle_Qle.
    apply Z.div_le_upper_bound; lia.
  - apply Qmult_le_0_compat; apply Qinv_le_0_compat; discriminate.
Qed.

Lemma forallb_filter_sub {A : Type} (f p : A -> bool) (l : list A) :
  forallb f l = true -> forallb f (filter p l) = true.
Proof.
  rewrite !forallb_forall. intros H x Hx. apply H.
  apply filter_In in Hx. tauto.
Qed.

Lemma newest_first_filter (p : Row -> bool) (l : list Row) :
  newest_first l = true -> newest_first (filter p l) = true.
Proof.
  induction l as [|r l IH]; simpl; [reflexivity|].
  intros H. apply andb_true_iff in H. destruct H as [Hr Hl].
  destruct (p r); simpl; [|now apply IH].
  now rewrite (forallb_filter_sub _ p l Hr), (IH Hl).
Qed.

Lemma recovery_samples_newest_first (l : list Row) :
  newest_first l = true -> recovery_samples (map classify l) = [].
Proof.
  induction l as [|r l IH]; simpl; [reflexivity|].
  intros H. apply andb_true_iff in H. destruct H as [Hr Hl].
  rewrite (IH Hl). destruct (str_contains failure_keywords (message r));
    [|reflexivity].
  destruct (first_deployment (map classify l)) as [d|] eqn:E; [|reflexivity].
  apply first_deployment_in in E. destruct E as [Hin _].
  apply in_map_iff in Hin. destruct Hin as [r' [<- Hr']].
  rewrite forallb_forall in Hr. specialize (Hr r' Hr').
  unfold duration_hours, classify; cbn [c_date].
  unfold not_later in Hr.
  destruct (date r) as [a|], (date r') as [b|]; try reflexivity.
  cbn [ts_sub]. rewrite hours_nonpositive; [reflexivity|].
  apply Z.leb_le in Hr. lia.
Qed.

(** X8: on a log whose dated records run from the newest to the oldest,
    the mean time to recovery of every component is 0: a deployment that
    comes later in the log is never later in time. *)
Theorem recovery_zero_on_newest_first_log (records : list Row) (name : string)
        (Horder : newest_first records = true) :
  exists rep,
    calculate_dora_metrics (load_data records) name = Ok rep /\
    Mean_Time_to_Recovery rep = Fin 0.
Proof.
  apply recovery_zero_of_samples.
  apply recovery_samples_newest_first, newest_first_filter, Horder.
Qed.

Lemma recovery_zero_on_newest_first_log_witness :
  exists rep,
    calculate_dora_metrics
      (load_data [ev (9 * hour) "[X] release v2"; ev (4 * hour) "[X] hotfix";
                  ev_nat "[X] release v1"; ev 0 "[X] bug in X"]) "X" = Ok rep /\
    Mean_Time_to_Recovery rep = Fin 0.
Proof.
  apply (recovery_zero_on_newest_first_log
           [ev (9 * hour) "[X] release v2"; ev (4 * hour) "[X] hotfix";
            ev_nat "[X] release v1"; ev 0 "[X] bug in X"] "X").
  reflexivity.
Defined.

(** *** The order of the log *)

Lemma Permutation_filter_length {A : Type} (f : A -> bool) (l l' : list A) :
  Permutation l l' -> List.length (filter f l) = List.length (filter f l').
Proof.
  induction 1 as [|x l l' _ IH|x y l|l l' l'' _ IH1 _ IH2]; simpl.
  - reflexivity.
  - destruct (f x); simpl; now rewrite IH.
  - destruct (f x), (f y); reflexivity.
  - now rewrite IH1.
Qed.

(** X18: the counts of a report and its change-failure rate do not depend
    on the order of the log. *)
Theorem counts_ignore_log_order (records records' : list Row) (name : string)
        (Hperm : Permutation records records') :
  exists rep rep',
    calculate_dora_metrics (load_data records) name = Ok rep /\
    calculate_dora_metrics (load_data records') name = Ok rep' /\
    Total_Commits rep = Total_Commits rep' /\
    Total_Bugs rep = Total_Bugs rep' /\
    Total_PRs rep = Total_PRs rep' /\
    Change_Failure_Rate rep = Change_Failure_Rate rep'.
Proof.
  destruct (calculate_dora_metrics_total (load_data records) name)
    as (rate & mttr & Hr & _ & Hc).
  destruct (calculate_dora_metrics_total (load_data records') name)
    as (rate' & mttr' & Hr' & _ & Hc').
  eexists; eexists. split; [exact Hc|]. split; [exact Hc'|]. cbn.
  rewrite !length_module_commits, !count_true_module_commits, !values_load_data.
  repeat split; try (now apply Permutation_filter_length).
  rewrite change_failure_rate_eq in Hr, Hr'.
  unfold deployment_count, failure_count in Hr, Hr'.
  rewrite !count_true_module_commits, !values_load_data in Hr, Hr'.
  rewrite (Permutation_filter_length
             (fun r => module_filter name r && is_deployment (classify r))
             _ _ Hperm) in Hr.
  rewrite (Permutation_filter_length
             (fun r => module_filter name r && is_failure (classify r))
             _ _ Hperm) in Hr.
  congruence.
Qed.

Lemma counts_ignore_log_order_witness :
  exists rep rep',
    calculate_dora_metrics
      (load_data [ev 0 "[X] bug in X"; ev (5 * hour) "[X] release v2"]) "X"
    = Ok rep /\
    calculate_dora_metrics
      (load_data [ev (5 * hour) "[X] release v2"; ev 0 "[X] bug in X"]) "X"
    = Ok rep' /\
    Change_Failure_Rate rep = Change_Failure_Rate rep'.
Proof.
  destruct (counts_ignore_log_order
              [ev 0 "[X] bug in X"; ev (5 * hour) "[X] release v2"]
              [ev (5 * hour) "[X] release v2"; ev 0 "[X] bug in X"] "X")
    as (rep & rep' & H & H' & _ & _ & _ & Hrate).
  - apply perm_swap.
  - now exists rep, rep'.
Defined.

(** *** The metrics as functions of the component's rows *)

Lemma insert_label_present (i : nat) (l : list nat) :
  StronglySorted lt l -> In i l -> insert_label i l = l.
Proof.
  induction l as [|j l IH]; simpl; intros Hs Hin; [contradiction|].
  apply StronglySorted_inv in Hs. destruct Hs as [Hs Hall].
  destruct (Nat.ltb_spec i j) as [Hlt|Hge].
  - exfalso. destruct Hin as [->|Hin]; [lia|].
    rewrite Forall_forall in Hall. specialize (Hall i Hin). lia.
  - destruct (Nat.eqb_spec i j) as [->|Hne]; [reflexivity|].
    destruct Hin as [->|Hin]; [congruence|]. now rewrite IH.
Qed.

Lemma fold_insert_sorted (l : list nat) :
  StronglySorted lt l -> fold_right insert_label [] l = l.
Proof.
  induction l as [|i l IH]; simpl; intros Hs; [reflexivity|].
  apply StronglySorted_inv in Hs. destruct Hs as [Hs Hall].
  rewrite (IH Hs). destruct l as [|j l]; [reflexivity|]. simpl.
  inversion Hall as [|? ? Hij _]; subst.
  apply Nat.ltb_lt in Hij. now rewrite Hij.
Qed.

Lemma index_union_sub (ia ib : list nat) :
  StronglySorted lt ib -> incl ia ib -> index_union ia ib = ib.
Proof.
  intros Hs Hincl. unfold index_union.
  rewrite fold_right_app, (fold_insert_sorted ib Hs).
  induction ia as [|i ia IH]; simpl; [reflexivity|].
  rewrite IH by (intros x Hx; apply Hincl; now right).
  apply insert_label_present; [exact Hs | apply Hincl; now left].
Qed.

Lemma get_absent {A : Type} (s : Series A) (i : nat) :
  ~ In i (index s) -> get s i = None.
Proof.
  induction s as [|[j a] s IH]; simpl; intros H; [reflexivity|].
  destruct (Nat.eqb_spec j i) as [->|Hne]; [exfalso; apply H; now left|].
  apply IH. intros Hin. apply H. now right.
Qed.

Lemma NoDup_index_functional {A : Type} (s : Series A) (i : nat) (a b : A) :
  NoDup (index s) -> In (i, a) s -> In (i, b) s -> a = b.
Proof.
  intros Hnd Ha Hb. apply (in_get s i a Hnd) in Ha.
  apply (in_get s i b Hnd) in Hb. congruence.
Qed.

Lemma index_date_column (mc : Series Commit) :
  index (date_column mc) = index mc.
Proof.
  unfold date_column. apply index_relabel.
Qed.

(** Line 67 row by row: a deployment meets itself, any other row meets
    nothing. *)
Lemma lead_times_values (mc : Series Commit) :
  increasing mc -> values (lead_times mc) = map own_lead (values mc).
Proof.
  intros Hinc. pose proof (increasing_NoDup mc Hinc) as Hnd.
  unfold values, lead_times, series_sub. rewrite !map_map. cbn [snd].
  rewrite index_union_sub.
  - rewrite index_date_column.
    unfold index. rewrite map_map. apply map_ext_in. intros [i c] Hin.
    cbn [fst snd].
    assert (Hb : get (date_column mc) i = Some (c_date c)).
    { apply in_get; [now rewrite index_date_column|].
      unfold date_column. apply in_map_iff. now exists (i, c). }
    rewrite Hb. unfold own_lead. destruct (is_deployment c) eqn:Ed.
    + assert (Ha : get (date_column (select is_deployment mc)) i
                   = Some (c_date c)).
      { apply in_get.
        - rewrite index_date_column.
          apply increasing_NoDup, select_increasing, Hinc.
        - unfold date_column. apply in_map_iff. exists (i, c).
          split; [reflexivity|]. apply filter_In. now split. }
      now rewrite Ha.
    + rewrite get_absent; [reflexivity|].
      rewrite index_date_column. intros Hi.
      apply in_map_iff in Hi. destruct Hi as [[i' c'] [Ei Hc']].
      simpl in Ei; subst i'. apply filter_In in Hc'. destruct Hc' as [Hc' Hd].
      simpl in Hd. rewrite (NoDup_index_functional mc i c c' Hnd Hin Hc') in Ed.
      congruence.
  - rewrite index_date_column. exact Hinc.
  - rewrite !index_date_column. intros i. apply index_select_incl.
Qed.

Lemma lead_time_by_values (mc : Series Commit) :
  increasing mc ->
  lead_time_for_changes mc =
  if (0 <? deployment_count mc)%nat
  then series_mean (map own_lead (values mc))
  else fzero.
Proof.
  intros Hinc. unfold lead_time_for_changes.
  destruct (Nat.ltb_spec 0 (deployment_count mc)) as [Hpos|_]; [|reflexivity].
  rewrite <- (lead_times_values mc Hinc).
  destruct (lead_times mc) as [|e l] eqn:E; [|reflexivity].
  exfalso. apply (f_equal values) in E. rewrite lead_times_values in E by exact Hinc.
  unfold deployment_count, count_true, select in Hpos.
  destruct mc as [|r mc]; [simpl in Hpos; lia | discriminate E].
Qed.

Lemma values_select {A : Type} (p : A -> bool) (s : Series A) :
  values (select p s) = filter p (values s).
Proof.
  unfold values, select. induction s as [|[i a] s IH]; simpl; [reflexivity|].
  destruct (p a); simpl; now rewrite IH.
Qed.

Lemma count_true_values {A : Type} (p : A -> bool) (s : Series A) :
  count_true p s = List.length (filter p (values s)).
Proof.
  unfold count_true. rewrite <- values_select. unfold values.
  now rewrite length_map.
Qed.

Lemma recovery_times_by_values (mc : Series Commit) :
  increasing mc -> recovery_times mc = Ok (recovery_samples (values mc)).
Proof.
  intros Hinc. unfold recovery_times.
  apply (recovery_loop_positions mc [] []); [intros j k [] | exact Hinc].
Qed.

(** Two frames with the same rows under increasing labels get the same
    metrics, whatever the labels are. *)
Lemma metrics_by_values (mc1 mc2 : Series Commit) :
  increasing mc1 -> increasing mc2 -> values mc1 = values mc2 ->
  List.length mc1 = List.length mc2 /\
  count_true is_bug mc1 = count_true is_bug mc2 /\
  count_true is_pr mc1 = count_true is_pr mc2 /\
  weekly_deployment_freq mc1 = weekly_deployment_freq mc2 /\
  change_failure_rate mc1 = change_failure_rate mc2 /\
  mean_time_to_recovery mc1 = mean_time_to_recovery mc2 /\
  lead_time_for_changes mc1 = lead_time_for_changes mc2.
Proof.
  intros H1 H2 Hv.
  assert (Hd : deployment_count mc1 = deployment_count mc2)
    by (unfold deployment_count; now rewrite !count_true_values, Hv).
  assert (Hf : failure_count mc1 = failure_count mc2)
    by (unfold failure_count; now rewrite !count_true_values, Hv).
  split; [rewrite <- (length_map snd mc1), <- (length_map snd mc2);
          fold (values mc1); fold (values mc2); now rewrite Hv|].
  split; [now rewrite !count_true_values, Hv|].
  split; [now rewrite !count_true_values, Hv|].
  split.
  { unfold weekly_deployment_freq, week_sizes, week_keys.
    now rewrite Hd, !values_select, Hv. }
  split; [unfold change_failure_rate; now rewrite Hd, Hf|].
  split.
  { unfold mean_time_to_recovery.
    now rewrite !recovery_times_by_values, Hv by assumption. }
  now rewrite !lead_time_by_values, Hd, Hv by assumption.
Qed.

Lemma filter_idem {A : Type} (p : A -> bool) (l : list A) :
  filter p (filter p l) = filter p l.
Proof.
  apply forallb_filter_id, forallb_filter.
Qed.

(** X9: the report of a component is the one computed from the records
    that carry its tag alone: the other records of the log, and the
    positions they take, change nothing. *)
Theorem report_from_own_records (records : list Row) (name : string) :
  calculate_dora_metrics (load_data records) name =
  calculate_dora_metrics
    (load_data (filter (module_filter name) records)) name.
Proof.
  set (own := filter (module_filter name) records).
  assert (Hv : values (module_commits (load_data records) name) =
               values (module_commits (load_data own) name)).
  { rewrite !values_module_commits, !values_load_data. unfold own.
    now rewrite filter_idem. }
  destruct (metrics_by_values _ _ (module_commits_increasing records name)
              (module_commits_increasing own name) Hv)
    as (Hlen & Hbug & Hpr & Hweek & Hrate & Hmttr & Hlead).
  unfold calculate_dora_metrics.
  now rewrite Hlen, Hbug, Hpr, Hweek, Hrate, Hmttr, Hlead.
Qed.

(** *** When a report holds NaN *)

Lemma positive_length_existsb {A : Type} (p : A -> bool) (l : list A) :
  (0 <? List.length (filter p l))%nat = existsb p l.
Proof.
  induction l as [|a l IH]; simpl; [reflexivity|].
  destruct (p a); simpl; [reflexivity | exact IH].
Qed.

Lemma is_finite_series_mean (l : list pyfloat) :
  is_finite (series_mean l) = (0 <? List.length (dropna l))%nat.
Proof.
  unfold series_mean. destruct (dropna l); reflexivity.
Qed.

Lemma own_lead_terms (l : list Commit) :
  List.length (dropna (map own_lead l)) =
  List.length (filter dated_deployment l).
Proof.
  unfold own_lead, dated_deployment, has_timestamp.
  induction l as [|c l IH]; simpl; [reflexivity|].
  destruct (is_deployment c); simpl; [|exact IH].
  destruct (c_date c); simpl; now rewrite IH.
Qed.

Lemma week_sizes_terms (mc : Series Commit) :
  (0 <? List.length (week_sizes mc))%nat =
  existsb dated_deployment (values mc).
Proof.
  destruct (week_sizes_spec mc) as (_ & Hin & Hn & Htot).
  assert (Hone : forall e, In e (week_sizes mc) -> (1 <= snd e)%nat).
  { intros [w n] He. simpl. rewrite (Hn w n He). apply Hin.
    change w with (fst (w, n)). now apply in_map. }
  pose proof (sizes_at_least_length _ Hone) as Hlen.
  rewrite <- positive_length_existsb. fold dated_deployment in Htot.
  unfold dated_deployment in *. rewrite <- Htot.
  destruct (week_sizes mc) as [|e g]; [reflexivity|].
  remember (total_size (e :: g)) as total.
  cbn [List.length] in *. destruct total; [lia | reflexivity].
Qed.

(** X10: the rate and the mean time to recovery of a report are always
    numbers; the weekly deployment frequency and the lead time are numbers
    exactly when the component has no deployment at all or has a
    deployment with a timestamp. *)
Theorem report_finite_iff (records : list Row) (name : string) :
  let commits := map classify (filter (module_filter name) records) in
  let dated :=
    negb (existsb is_deployment commits) || existsb dated_deployment commits in
  exists rep,
    calculate_dora_metrics (load_data records) name = Ok rep /\
    is_finite (Change_Failure_Rate rep) = true /\
    is_finite (Mean_Time_to_Recovery rep) = true /\
    is_finite (Weekly_Deployment_Frequency rep) = dated /\
    is_finite (Lead_Time_for_Changes rep) = dated /\
    all_finite rep = dated.
Proof.
  cbn zeta.
  pose proof (values_module_commits (load_data records) name) as Hv.
  rewrite values_load_data in Hv. rewrite <- Hv.
  destruct (calculate_dora_metrics_total (load_data records) name)
    as (rate & mttr & _ & _ & Hc).
  set (mc := module_commits (load_data records) name) in *.
  assert (Hd : (0 <? deployment_count mc)%nat
               = existsb is_deployment (values mc)).
  { unfold deployment_count. rewrite count_true_values.
    apply positive_length_existsb. }
  assert (Hweek : is_finite (weekly_deployment_freq mc) =
                  negb (existsb is_deployment (values mc))
                  || existsb dated_deployment (values mc)).
  { unfold weekly_deployment_freq. rewrite Hd.
    destruct (existsb is_deployment (values mc)); [|reflexivity].
    rewrite is_finite_series_mean, dropna_of_int, length_map.
    apply week_sizes_terms. }
  assert (Hlead : is_finite (lead_time_for_changes mc) =
                  negb (existsb is_deployment (values mc))
                  || existsb dated_deployment (values mc)).
  { rewrite lead_time_by_values by apply module_commits_increasing.
    rewrite Hd. destruct (existsb is_deployment (values mc)); [|reflexivity].
    rewrite is_finite_series_mean, own_lead_terms.
    apply positive_length_existsb. }
  eexists; split; [exact Hc|]. unfold all_finite. cbn.
  rewrite Hweek, Hlead. repeat split.
  now rewrite !andb_true_r, andb_diag.
Qed.

(** *** Further facts on single metrics *)

(** X14: whenever the lead time of a report is a number, that number is 0,
    whatever the timestamps of the log are. *)
Theorem lead_time_carries_no_duration (records : list Row) (name : string) :
  exists rep,
    calculate_dora_metrics (load_data records) name = Ok rep /\
    forall q, Lead_Time_for_Changes rep = Fin q -> q == 0.
Proof.
  destruct (calculate_dora_metrics_total (load_data records) name)
    as (rate & mttr & _ & _ & Hc).
  eexists; split; [exact Hc|]. cbn [Lead_Time_for_Changes]. intros q Hq.
  destruct (lead_time_zero_or_nan records name) as [H|[q' [H Hz]]];
    cbn zeta in H; rewrite H in Hq; [discriminate|].
  now injection Hq as <-.
Qed.

Lemma rate_value (fc dc : nat) :
  (0 < dc)%nat ->
  0 <= inject_Z (Z.of_nat fc) / inject_Z (Z.of_nat dc) * 100 /\
  (inject_Z (Z.of_nat fc) / inject_Z (Z.of_nat dc) * 100 <= 100
   <-> (fc <= dc)%nat).
Proof.
  intros Hpos. destruct dc as [|n]; [lia|].
  unfold Qle, Qdiv, Qmult, Qinv, inject_Z. cbn [Qnum Qden Z.of_nat].
  split; [simpl; lia|]. simpl. split; intros H; lia.
Qed.

(** X16: the change-failure rate is never negative, and with at least one
    deployment it stays within 100 exactly when the failures do not
    outnumber the deployments. *)
Theorem change_failure_rate_range (records : list Row) (name : string) :
  let mc := module_commits (load_data records) name in
  exists rep q,
    calculate_dora_metrics (load_data records) name = Ok rep /\
    Change_Failure_Rate rep = Fin q /\
    0 <= q /\
    (deployment_count mc = 0%nat -> q == 0) /\
    ((0 < deployment_count mc)%nat ->
     (q <= 100 <-> (failure_count mc <= deployment_count mc)%nat)).
Proof.
  cbn zeta.
  destruct (calculate_dora_metrics_total (load_data records) name)
    as (rate & mttr & Hr & _ & Hc).
  eexists; exists rate. split; [exact Hc|]. split; [reflexivity|].
  rewrite change_failure_rate_eq in Hr.
  set (mc := module_commits (load_data records) name) in *.
  destruct (Nat.ltb_spec 0 (deployment_count mc)) as [Hpos|Hz].
  - injection Hr as <-.
    destruct (rate_value (failure_count mc) (deployment_count mc) Hpos)
      as [H0 Hiff].
    split; [exact H0|]. split; [lia | intros _; exact Hiff].
  - injection Hr as <-. split; [apply Qle_refl|].
    split; [reflexivity | lia].
Qed.

Lemma recovery_samples_per_failure (l : list Commit) :
  (List.length (recovery_samples l) <= List.length (filter is_failure l))%nat.
Proof.
  induction l as [|c l IH]; simpl; [lia|].
  destruct (is_failure c); [|exact IH].
  destruct (first_deployment l); [|simpl; lia].
  destruct (fgt _ fzero); simpl; lia.
Qed.

(** X17: the mean time to recovery averages at most one duration per
    failure of the component. *)
Theorem one_sample_per_failure (records : list Row) (name : string) :
  let mc := module_commits (load_data records) name in
  exists rts,
    recovery_times mc = Ok rts /\
    (List.length rts <= failure_count mc)%nat.
Proof.
  cbn zeta. eexists; split; [apply recovery_times_positions|].
  unfold failure_count. rewrite count_true_values, values_module_commits,
    values_load_data.
  apply recovery_samples_per_failure.
Qed.

Lemma lower_char_bracket (c : ascii) :
  Ascii.eqb (lower_char c) "[" = Ascii.eqb c "[".
Proof.
  destruct c as [[] [] [] [] [] [] [] []]; reflexivity.
Qed.

Lemma mentions_lower (s : string) : mentions "[" (lower s) = mentions "[" s.
Proof.
  induction s as [|c s IH]; simpl; [reflexivity|].
  now rewrite lower_char_bracket, IH.
Qed.

Lemma mentions_app (c : ascii) (a b : string) :
  mentions c (a ++ b)%string = mentions c a || mentions c b.
Proof.
  induction a as [|x a IH]; simpl; [reflexivity|].
  now rewrite IH, orb_assoc.
Qed.

Lemma untagged_not_selected (name : string) (r : Row) :
  untagged r = true -> module_filter name r = false.
Proof.
  unfold untagged. intros H. apply not_true_is_false. intros Hf.
  apply module_filter_spec in Hf. destruct Hf as (m & Hm & pre & suf & Hocc).
  rewrite Hm in H. apply negb_true_iff in H.
  rewrite <- mentions_lower, Hocc in H.
  unfold bracketed in H. simpl in H.
  rewrite mentions_app in H. simpl in H. rewrite orb_true_r in H. discriminate.
Qed.

(** X15: a record whose message is missing or holds no opening bracket is
    counted in no report, whatever the component name. *)
Theorem untagged_record_in_no_report (records : list Row) (name : string)
        (i : nat) (r : Row)
        (Hi : nth_error records i = Some r) (Hr : untagged r = true) :
  ~ counted_in (load_data records) name i.
Proof.
  intros Hc. apply in_module_commits in Hc. destruct Hc as (r' & Hin & Hf).
  apply in_load_data in Hin. rewrite Hi in Hin. injection Hin as <-.
  rewrite (untagged_not_selected name r Hr) in Hf. discriminate.
Qed.

Lemma untagged_record_in_no_report_witness :
  ~ counted_in (load_data [ev 0 "[X] release"; ev 1 "X release notes"]) "X" 1.
Proof.
  apply (untagged_record_in_no_report
           [ev 0 "[X] release"; ev 1 "X release notes"] "X" 1%nat
           (ev 1 "X release notes")); reflexivity.
Defined.

(** *** The range of durations *)

(** A release one nanosecond after a bug is no recovery for line 57; one
    microsecond after, it is. *)
Example recovery_drops_nanoseconds :
  (exists rep,
      calculate_dora_metrics
        (load_data [ev 0 "[X] bug in X"; ev 1 "[X] release v2"]) "X" = Ok rep /\
      Mean_Time_to_Recovery rep = Fin 0) /\
  (exists rep,
      calculate_dora_metrics
        (load_data [ev 0 "[X] bug in X"; ev 1000 "[X] release v2"]) "X" = Ok rep /\
      feq (Mean_Time_to_Recovery rep) (Fin (1 # 3600000000))).
Proof.
  split; eexists; (split; [vm_compute; reflexivity|]);
    [reflexivity | vm_compute; reflexivity].
Qed.

Lemma timestamp_sub_in_range (a b : Timestamp) :
  (forall x y, a = Some x -> b = Some y -> in_timedelta_range (x - y) = true) ->
  timestamp_sub a b = Ok (ts_sub a b).
Proof.
  intros H. destruct a as [x|], b as [y|]; try reflexivity.
  specialize (H x y eq_refl eq_refl). unfold in_timedelta_range in H.
  apply andb_true_iff in H. destruct H as [Hlo Hhi].
  apply Z.ltb_lt in Hlo. apply Z.leb_le in Hhi.
  unfold timestamp_sub, ts_sub.
  destruct (Z.ltb_spec (x - y) int64_min); [lia|].
  destruct (Z.ltb_spec int64_max (x - y)); [lia|].
  destruct (Z.eqb_spec (x - y) int64_min); [lia | reflexivity].
Qed.

Lemma recovery_loop_checked_eq (mc : Series Commit) (indices : list nat) :
  dates_within_range mc ->
  (forall idx, In idx indices -> In idx (index mc)) ->
  forall acc,
    recovery_loop_checked mc indices acc = recovery_loop mc indices acc.
Proof.
  intros Hrange. induction indices as [|idx rest IH]; intros Hidx acc; simpl;
    [reflexivity|].
  assert (Hrest : forall i, In i rest -> In i (index mc))
    by (intros i Hi; apply Hidx; now right).
  destruct (loc_in_index mc idx (Hidx idx (or_introl eq_refl)))
    as [f [Hloc Hf]].
  rewrite Hloc; simpl.
  destruct (subsequent_recoveries mc idx) as [|[j d] later] eqn:El; simpl;
    [now apply IH|].
  assert (Hd : In (j, d) mc).
  { assert (H : In (j, d) (subsequent_recoveries mc idx))
      by (rewrite El; now left).
    unfold subsequent_recoveries in H. apply filter_In in H. tauto. }
  unfold iloc; simpl.
  rewrite timestamp_sub_in_range
    by (intros x y Hx Hy; exact (Hrange idx f j d y x Hf Hd Hy Hx)).
  simpl. destruct (fgt _ fzero); now apply IH.
Qed.

Lemma in_module_commits_row (df : DataFrame) (name : string) (i : nat)
      (c : Commit) :
  In (i, c) (module_commits df name) ->
  exists r, In (i, r) df /\ c = classify r.
Proof.
  unfold module_commits, select. intros H. apply in_map_iff in H.
  destruct H as [[i' r] [Heq Hin]]. cbn in Heq. injection Heq as -> <-.
  apply filter_In in Hin. exists r. tauto.
Qed.

Lemma within_range_dates (records : list Row) (name : string) :
  within_range records = true ->
  dates_within_range (module_commits (load_data records) name).
Proof.
  intros H i f j d x y Hf Hd Hx Hy.
  apply in_module_commits_row in Hf. destruct Hf as (rf & Hrf & ->).
  apply in_module_commits_row in Hd. destruct Hd as (rd & Hrd & ->).
  assert (Irf : In rf records) by (apply in_values_load_data; now exists i).
  assert (Ird : In rd records) by (apply in_values_load_data; now exists j).
  cbn in Hx, Hy. unfold within_range in H. rewrite forallb_forall in H.
  specialize (H rf Irf). rewrite Hx in H. rewrite forallb_forall in H.
  specialize (H rd Ird). unfold span_ok in H. rewrite Hy in H.
  apply andb_true_iff in H. tauto.
Qed.

(** X21: on a frame with a text message column whose dated records are
    pairwise less than 2^63 nanoseconds apart, the computation with the
    checks of the library raises nothing and returns the report of
    [calculate_dora_metrics]. *)
Theorem checked_agrees_within_range (records : list Row) (name : string)
        (Hrange : within_range records = true) :
  exists rep,
    calculate_dora_metrics_checked true (load_data records) name = Ok rep /\
    calculate_dora_metrics (load_data records) name = Ok rep.
Proof.
  destruct (calculate_dora_metrics_total (load_data records) name)
    as (rate & mttr & _ & _ & Hc).
  eexists; split; [|exact Hc]. rewrite <- Hc.
  unfold calculate_dora_metrics_checked, calculate_dora_metrics. cbn [negb].
  unfold mean_time_to_recovery_checked, mean_time_to_recovery, recovery_times.
  rewrite recovery_loop_checked_eq; [reflexivity | |].
  - now apply within_range_dates.
  - intros idx. apply index_select_incl.
Qed.

Lemma checked_agrees_within_range_witness :
  exists rep,
    calculate_dora_metrics_checked true
      (load_data [ev 0 "[X] bug in X"; ev_nat "[X] tidy";
                  ev (5 * hour) "[X] release v2"]) "X" = Ok rep /\
    feq (Mean_Time_to_Recovery rep) (Fin 5).
Proof.
  destruct (checked_agrees_within_range
              [ev 0 "[X] bug in X"; ev_nat "[X] tidy";
               ev (5 * hour) "[X] release v2"] "X") as (rep & Hc & Hu).
  - reflexivity.
  - exists rep. split; [exact Hc|].
    vm_compute in Hu. injection Hu as <-. vm_compute. reflexivity.
Defined.

End DoraMore.
